(** * hack/fix-crd-claims.py: the claims-annotation patcher

    A shallow embedding of [fix_claims] and the properties of its pass
    over the lines of a CRD file.

    The script reads the file with [readlines], runs one [while] loop
    over the list of lines and writes the accumulated [fixed_lines] back.
    [fix_claims] below is the loop: its input is the list of lines read,
    its output the list [fixed_lines] written.  [fix_claims_text] puts
    [readlines] and [writelines] around it, from text to text. *)

From Stdlib Require Import Ascii String ZArith Lia.
From stdpp Require Import base list strings.

(** ** Python strings

    A line is a Python [str].  It is modelled as a [string] whose
    characters are the code points below 256. *)

Module Py.

(** [str.isspace] on one character, for the code points below 256:
    TAB, LF, VT, FF, CR, the separators FS, GS, RS, US, the space,
    NEL (133) and the no-break space (160). *)
Definition isspace (c : ascii) : bool :=
  let n := Ascii.nat_of_ascii c in
  ((9 <=? n) && (n <=? 13)) || ((28 <=? n) && (n <=? 32))
  || (n =? 133) || (n =? 160).

(** [len(s)] *)
Definition len (s : string) : nat := String.length s.

(** [s.lstrip()] *)
Fixpoint lstrip (s : string) : string :=
  match s with
  | EmptyString => EmptyString
  | String c s' => if isspace c then lstrip s' else s
  end.

(** [s.rstrip()] *)
Fixpoint rstrip (s : string) : string :=
  match s with
  | EmptyString => EmptyString
  | String c s' =>
      match rstrip s' with
      | EmptyString => if isspace c then EmptyString else String c EmptyString
      | r => String c r
      end
  end.

(** [s.strip()] *)
Definition strip (s : string) : string := lstrip (rstrip s).

(** The truth value of a string in a condition: it is not empty. *)
Definition truthy (s : string) : bool :=
  match s with
  | EmptyString => false
  | String _ _ => true
  end.

(** [sub in s] *)
Fixpoint contains (sub s : string) : bool :=
  String.prefix sub s
  || match s with
     | EmptyString => false
     | String _ s' => contains sub s'
     end.

(** [" " * n] *)
Fixpoint spaces (n : nat) : string :=
  match n with
  | 0 => EmptyString
  | S n' => String " "%char (spaces n')
  end.

(** The newline character, written [\n] in the script. *)
Definition nl : string := String (Ascii.ascii_of_nat 10) EmptyString.

(** [lines[k]].  Every subscript of the script is guarded by a bound
    check on [k], so the default is never returned under the loops. *)
Definition item (lines : list string) (k : nat) : string :=
  nth k lines EmptyString.

End Py.

Import Py.

(** ** The loop state of [fix_claims] *)

Record state : Type := State {
  i : nat;
  in_claims_items : bool;
  claims_indent : nat;
  fixed_lines : list string
}.

(** [fixed_lines = []; i = 0; in_claims_items = False; claims_indent = 0] *)
Definition init : state :=
  {| i := 0; in_claims_items := false; claims_indent := 0; fixed_lines := [] |}.

(** ** The checks of the loop body *)

(** [len(line) - len(line.lstrip())] *)
Definition indent_of (line : string) : nat :=
  len line - len (lstrip line).

(** The inner [while j < len(lines) and j < i + 5] loop.  It visits
    [lines[j]] for [j] from [i + 1], that is the slice
    [lines[i+1 : i+5]]; [window] is what is left of that slice.  The
    result is [(found_array, found_list_type)]; the [break] ends the scan
    at the first line that contains the list type. *)
Fixpoint lookahead (window : list string) (found_array : bool) : bool * bool :=
  match window with
  | [] => (found_array, false)
  | next_line :: window' =>
      let found_array :=
        if contains "type: array" next_line then true else found_array in
      if contains "x-kubernetes-list-type: set" next_line
      then (found_array, true)
      else lookahead window' found_array
  end.

(** [lines[i+1 : i+5]], the lines the inner loop can visit. *)
Definition lookahead_window (lines : list string) (i : nat) : list string :=
  take 4 (drop (S i) lines).

(** The range of the [for k] loop:
    [range(max(0, i-5), min(len(lines), i+5))]. *)
Definition map_type_range (lines : list string) (i : nat) : list nat :=
  let lo := Nat.max 0 (i - 5) in
  let hi := Nat.min (length lines) (i + 5) in
  seq lo (hi - lo).

(** The test of the [for k] loop at one [k]. *)
Definition map_type_at (lines : list string) (i : nat) (line : string) (k : nat) : bool :=
  contains "x-kubernetes-map-type" (item lines k) && negb (k =? i)
  && (Z.abs (Z.of_nat (indent_of (item lines k)) - Z.of_nat (indent_of line)) <? 2)%Z.

(** [has_map_type] after the [for k] loop. *)
Definition has_map_type (lines : list string) (i : nat) (line : string) : bool :=
  existsb (map_type_at lines i line) (map_type_range lines i).

(** [" " * indent + "x-kubernetes-map-type: atomic\n"] *)
Definition map_type_line (indent : nat) : string :=
  spaces indent +:+ "x-kubernetes-map-type: atomic" +:+ nl.

(** ** The loop *)

(** One iteration of the outer [while] loop, entered with [i < len(lines)]. *)
Definition body (lines : list string) (s : state) : state :=
  let line := item lines (i s) in
  if contains "claims:" line && negb (in_claims_items s) then
    {| i := S (i s);
       in_claims_items := true;
       claims_indent := indent_of line;
       fixed_lines := fixed_lines s ++ [line] |}
  else if in_claims_items s then
    let current_indent := indent_of line in
    let in_claims_items' :=
      if truthy (strip line) && (current_indent <=? claims_indent s)
      then false else true in
    if String.eqb (strip line) "type: object" then
      let fixed := fixed_lines s ++ [line] in
      let '(found_array, found_list_type) :=
        lookahead (lookahead_window lines (i s)) false in
      if found_array && found_list_type
         && negb (has_map_type lines (i s) line)
      then
        {| i := S (i s);
           in_claims_items := in_claims_items';
           claims_indent := claims_indent s;
           fixed_lines := fixed ++ [map_type_line (indent_of line)] |}
      else
        {| i := S (i s);
           in_claims_items := in_claims_items';
           claims_indent := claims_indent s;
           fixed_lines := fixed ++ [line] |}
    else
      {| i := S (i s);
         in_claims_items := in_claims_items';
         claims_indent := claims_indent s;
         fixed_lines := fixed_lines s ++ [line] |}
  else
    {| i := S (i s);
       in_claims_items := in_claims_items s;
       claims_indent := claims_indent s;
       fixed_lines := fixed_lines s ++ [line] |}.

(** The outer [while i < len(lines)] loop, with a bound on the number of
    iterations: [None] when the bound is reached before the loop exits. *)
Fixpoint run (fuel : nat) (lines : list string) (s : state) : option state :=
  if i s <? length lines then
    match fuel with
    | 0 => None
    | S fuel' => run fuel' lines (body lines s)
    end
  else Some s.

(** The state at the head of iteration [n] of the outer loop. *)
Definition state_at (lines : list string) (n : nat) : state :=
  Nat.iter n (body lines) init.

(** [fix_claims], from the list read to the list written. *)
Definition fix_claims (lines : list string) : list string :=
  match run (length lines) lines init with
  | Some s => fixed_lines s
  | None => []
  end.

(** ** What an iteration writes *)

(** The lines one iteration appends to [fixed_lines]. *)
Definition emitted (lines : list string) (s : state) : list string :=
  drop (length (fixed_lines s)) (fixed_lines (body lines s)).

(** Both flags of the lookahead are set at line [n]. *)
Definition found_both (lines : list string) (n : nat) : bool :=
  let '(found_array, found_list_type) :=
    lookahead (lookahead_window lines n) false in
  found_array && found_list_type.

(** The three shapes of what one iteration appends for [line]. *)
Inductive chunk (line : string) : list string -> Prop :=
  | chunk_copy : chunk line [line]
  | chunk_twice :
      strip line = "type: object" -> chunk line [line; line]
  | chunk_annotated :
      strip line = "type: object" ->
      chunk line [line; map_type_line (indent_of line)].

(** The lines the pass writes when it reads [lines[n]]. *)
Definition written_for (lines : list string) (n : nat) : list string :=
  emitted lines (state_at lines n).

(** The iterations that append an annotation line. *)
Definition insertions (lines : list string) : nat :=
  length (filter
    (fun n => written_for lines n
              = [item lines n; map_type_line (indent_of (item lines n))])
    (seq 0 (length lines))).

(** The iterations that append the line they read a second time. *)
Definition repeats (lines : list string) : nat :=
  length (filter
    (fun n => written_for lines n = [item lines n; item lines n])
    (seq 0 (length lines))).

(** ** The checks, by position in the file *)

(** The lookahead finds both at line [n]: a line that contains the list
    type is among [lines[n+1 : n+5]], and the first of them is, or comes
    after, a line that contains [type: array]. *)
Definition qualifies (lines : list string) (n : nat) : Prop :=
  exists q r,
    r <= q /\ q < 4 /\ S n + q < length lines /\
    contains "x-kubernetes-list-type: set" (item lines (S n + q)) = true /\
    (forall q', q' < q ->
       contains "x-kubernetes-list-type: set" (item lines (S n + q')) = false) /\
    contains "type: array" (item lines (S n + r)) = true.

(** A line [k] the already-present check accepts for line [n]: not [n]
    itself, from 5 lines before to 4 lines after. *)
Definition already_annotated (lines : list string) (n : nat) : Prop :=
  exists k,
    k <> n /\ n <= k + 5 /\ k < n + 5 /\ k < length lines /\
    contains "x-kubernetes-map-type" (item lines k) = true /\
    (Z.abs (Z.of_nat (indent_of (item lines k))
            - Z.of_nat (indent_of (item lines n))) < 2)%Z.

(** Where the lines of [out] come from: each is a line of [lines], or the
    annotation line built for the [type: object] line just before it. *)
Definition copied_or_annotation (lines out : list string) : Prop :=
  forall p l,
    out !! p = Some l ->
    l ∈ lines \/
    exists q line,
      p = S q /\ out !! q = Some line /\ line ∈ lines /\
      strip line = "type: object" /\
      l = spaces (indent_of line) +:+ "x-kubernetes-map-type: atomic" +:+ nl.

(** ** Inputs *)

(** A line of a file: its text and the newline. *)
Definition ln (text : string) : string := text +:+ nl.

(** The block of the targeted-insertion example. *)
Definition example_block : list string :=
  [ ln "    claims:";
    ln "      items:";
    ln "        properties:";
    ln "          name:";
    ln "            type: string";
    ln "        required:";
    ln "        - name";
    ln "        type: object";
    ln "      type: array";
    ln "      x-kubernetes-list-type: set" ].

(** The example block once patched. *)
Definition patched_block : list string :=
  [ ln "    claims:";
    ln "      items:";
    ln "        properties:";
    ln "          name:";
    ln "            type: string";
    ln "        required:";
    ln "        - name";
    ln "        type: object";
    ln "        x-kubernetes-map-type: atomic";
    ln "      type: array";
    ln "      x-kubernetes-list-type: set" ].

(** A claims block without the list type. *)
Definition plain_array_block : list string :=
  [ ln "claims:";
    ln "  items:";
    ln "    type: object";
    ln "  type: array" ].

(** A claims block whose list is a map, as the generator writes it for
    the resource claims of a container. *)
Definition map_list_block : list string :=
  [ ln "claims:";
    ln "  items:";
    ln "    type: object";
    ln "  type: array";
    ln "  x-kubernetes-list-map-keys:";
    ln "  - name";
    ln "  x-kubernetes-list-type: map" ].

(** The pattern with no [claims:] key above it. *)
Definition no_claims_block : list string :=
  [ ln "limits:";
    ln "  items:";
    ln "    type: object";
    ln "  type: array";
    ln "  x-kubernetes-list-type: set" ].

(** An annotation five lines below the [type: object] line. *)
Definition late_annotation_block : list string :=
  [ ln "claims:";
    ln "  items:";
    ln "    type: object";
    ln "  type: array";
    ln "  x-kubernetes-list-type: set";
    ln "limits:";
    ln "  items:";
    ln "    x-kubernetes-map-type: atomic";
    ln "    type: object" ].

(** Two [type: object] lines next to each other, both above the array. *)
Definition two_sites_block : list string :=
  [ ln "claims:";
    ln "  items:";
    ln "    type: object";
    ln "    type: object";
    ln "  type: array";
    ln "  x-kubernetes-list-type: set" ].

(** The same two lines with no [claims:] key above them. *)
Definition two_sites_no_claims_block : list string :=
  [ ln "limits:";
    ln "  items:";
    ln "    type: object";
    ln "    type: object";
    ln "  type: array";
    ln "  x-kubernetes-list-type: set" ].

(** ** The file and the block *)

(** [f.readlines()] on the text of the file, as Python hands it over
    (after decoding and newline translation): the text is cut after
    every newline, each line keeps its newline, and a last line without
    one is kept as it is.  The empty text has no line. *)
Fixpoint readlines (text : string) : list string :=
  match text with
  | EmptyString => []
  | String c text' =>
      if Ascii.eqb c (Ascii.ascii_of_nat 10) then
        String c EmptyString :: readlines text'
      else
        match readlines text' with
        | [] => [String c EmptyString]
        | l :: ls => String c l :: ls
        end
  end.

(** [f.writelines(fixed_lines)]: the lines one after the other, nothing
    added between them. *)
Fixpoint writelines (ls : list string) : string :=
  match ls with
  | [] => EmptyString
  | l :: ls' => l +:+ writelines ls'
  end.

(** The newline translation of [open(filename, 'r')] on reading: a
    carriage return followed by a newline, and a carriage return alone,
    are handed over as one newline.  On writing, [open(filename, 'w')]
    writes a newline as [os.linesep]; the script is a POSIX script
    ([#!/usr/bin/env python3], a path with [/]), where that is the
    newline itself, so the text written is the text given. *)
Fixpoint universal_newlines (raw : string) : string :=
  match raw with
  | EmptyString => EmptyString
  | String c raw' =>
      if Ascii.eqb c (Ascii.ascii_of_nat 13) then
        String (Ascii.ascii_of_nat 10)
          match raw' with
          | EmptyString => EmptyString
          | String c' raw'' =>
              if Ascii.eqb c' (Ascii.ascii_of_nat 10)
              then universal_newlines raw''
              else universal_newlines raw'
          end
      else String c (universal_newlines raw')
  end.

(** The text of the file after [fix_claims(filename)], from the text
    before: open the file and read the lines, run the loop, write the
    lines. *)
Definition fix_claims_text (text : string) : string :=
  writelines (fix_claims (readlines (universal_newlines text))).

(** A text without carriage return. *)
Fixpoint no_cr (s : string) : bool :=
  match s with
  | EmptyString => true
  | String c s' => negb (Ascii.eqb c (Ascii.ascii_of_nat 13)) && no_cr s'
  end.

(** A line with its newline: the newline is its last character and its
    only one. *)
Fixpoint terminated (l : string) : bool :=
  match l with
  | EmptyString => false
  | String c l' =>
      if Ascii.eqb c (Ascii.ascii_of_nat 10) then
        match l' with
        | EmptyString => true
        | String _ _ => false
        end
      else terminated l'
  end.

(** A text that is empty or ends with a newline. *)
Fixpoint complete (text : string) : bool :=
  match text with
  | EmptyString => true
  | String c text' =>
      match text' with
      | EmptyString => Ascii.eqb c (Ascii.ascii_of_nat 10)
      | String _ _ => complete text'
      end
  end.

(** The [type: object] lines of a file. *)
Definition object_lines (lines : list string) : list string :=
  filter (fun l => strip l = "type: object") lines.

(** Line [n] is read inside the claims block opened at line [e]: [e]
    contains [claims:] and was read with the flag clear, and every line
    after it and before [n] that is not blank is indented deeper than
    [e]. *)
Definition in_block (lines : list string) (e n : nat) : Prop :=
  e < n /\
  contains "claims:" (item lines e) = true /\
  in_claims_items (state_at lines e) = false /\
  forall j, e < j < n ->
    truthy (strip (item lines j)) = true ->
    indent_of (item lines e) < indent_of (item lines j).

(** A block left on a [type: object] line that is still a site. *)
Definition sibling_object_block : list string :=
  [ ln "  claims:";
    ln "    items:";
    ln "  type: object";
    ln "  type: array";
    ln "  x-kubernetes-list-type: set";
    ln "    type: object";
    ln "  type: array";
    ln "  x-kubernetes-list-type: set" ].

(** ** Tactics *)

(** Closes a goal about a given file by running the pass. *)
Ltac evaluate := vm_compute; reflexivity.

(** Proves [qualifies lines n] from the positions [q] of the first line
    with the list type and [r] of a line with [type: array]; the lines
    before [q] are checked one by one. *)
Ltac qualifies_at q r :=
  exists q, r;
  split; [lia|]; split; [lia|]; split; [simpl; lia|];
  split; [evaluate|]; split; [|evaluate];
  let q' := fresh "q'" in
  let Hq' := fresh "Hq'" in
  intros q' Hq';
  repeat (destruct q' as [|q']; [evaluate|]); lia.

(** ** One iteration *)

Lemma body_i lines s : i (body lines s) = S (i s).
Proof.
  unfold body.
  repeat (match goal with
          | |- context [if ?b then _ else _] => destruct b
          | |- context [let '(_, _) := ?p in _] => destruct p
          end; simpl); reflexivity.
Qed.

Lemma body_fixed_lines lines s :
  fixed_lines (body lines s) = fixed_lines s ++ emitted lines s.
Proof.
  unfold emitted, body.
  repeat (match goal with
          | |- context [if ?b then _ else _] => destruct b
          | |- context [let '(_, _) := ?p in _] => destruct p
          end; simpl);
    rewrite <- ?(assoc_L (++)); rewrite drop_app_length; reflexivity.
Qed.

(** What an iteration appends, path by path. *)
Lemma emitted_eq lines s :
  emitted lines s =
    let line := item lines (i s) in
    if in_claims_items s && String.eqb (strip line) "type: object" then
      if found_both lines (i s) && negb (has_map_type lines (i s) line)
      then [line; map_type_line (indent_of line)]
      else [line; line]
    else [line].
Proof.
  unfold emitted, body, found_both. cbv zeta.
  destruct (in_claims_items s); rewrite ?andb_false_r; simpl.
  - destruct (String.eqb _ _); simpl.
    + destruct (lookahead _ _) as [fa fl].
      destruct (fa && fl && _); simpl;
        rewrite <- ?(assoc_L (++)); rewrite drop_app_length; reflexivity.
    + rewrite drop_app_length; reflexivity.
  - destruct (contains _ _); simpl; rewrite drop_app_length; reflexivity.
Qed.

Lemma emitted_chunk lines s : chunk (item lines (i s)) (emitted lines s).
Proof.
  rewrite emitted_eq. cbv zeta.
  destruct (in_claims_items s); simpl; [|constructor].
  destruct (String.eqb _ _) eqn:E; [|constructor].
  apply String.eqb_eq in E.
  destruct (_ && _); constructor; assumption.
Qed.

(** ** The whole loop *)

Section Pass.

Variable lines : list string.

Lemma state_at_S n :
  state_at lines (S n) = body lines (state_at lines n).
Proof. reflexivity. Qed.

Lemma state_at_i n : i (state_at lines n) = n.
Proof.
  induction n as [|n IH]; [reflexivity|].
  rewrite state_at_S, body_i, IH. reflexivity.
Qed.

Lemma run_iter fuel : forall s,
  length lines - i s <= fuel ->
  run fuel lines s = Some (Nat.iter (length lines - i s) (body lines) s).
Proof.
  induction fuel as [|fuel IH]; intros s Hfuel; simpl.
  - destruct (Nat.ltb_spec (i s) (length lines)); [lia|].
    replace (length lines - i s) with 0 by lia. reflexivity.
  - destruct (Nat.ltb_spec (i s) (length lines)) as [Hlt|Hge].
    + rewrite IH by (rewrite body_i; lia).
      rewrite body_i.
      replace (length lines - i s) with (S (length lines - S (i s))) by lia.
      rewrite Nat.iter_succ_r. reflexivity.
    + replace (length lines - i s) with 0 by lia. reflexivity.
Qed.

Lemma run_state_at :
  run (length lines) lines init = Some (state_at lines (length lines)).
Proof.
  rewrite run_iter by (simpl; lia).
  simpl. rewrite Nat.sub_0_r. reflexivity.
Qed.

Lemma fix_claims_state_at :
  fix_claims lines = fixed_lines (state_at lines (length lines)).
Proof. unfold fix_claims. rewrite run_state_at. reflexivity. Qed.

Lemma fixed_lines_S n :
  fixed_lines (state_at lines (S n))
  = fixed_lines (state_at lines n) ++ emitted lines (state_at lines n).
Proof. rewrite state_at_S. apply body_fixed_lines. Qed.

Lemma fixed_lines_prefix n m :
  n <= m ->
  fixed_lines (state_at lines n) `prefix_of` fixed_lines (state_at lines m).
Proof.
  induction 1 as [|m Hle IH]; [reflexivity|].
  etrans; [exact IH|]. rewrite fixed_lines_S. apply prefix_app_r. reflexivity.
Qed.

Lemma item_lookup n :
  n < length lines -> lines !! n = Some (item lines n).
Proof.
  intros Hn. unfold item.
  destruct (lookup_lt_is_Some_2 lines n Hn) as [x Hx].
  rewrite Hx. f_equal. symmetry. apply nth_lookup_Some with (d := EmptyString) in Hx.
  exact Hx.
Qed.

Lemma state_at_concat n :
  fixed_lines (state_at lines n) = concat (map (written_for lines) (seq 0 n)).
Proof.
  induction n as [|n IH]; [reflexivity|].
  rewrite fixed_lines_S, seq_S, map_app, concat_app, <- IH.
  simpl. rewrite app_nil_r. reflexivity.
Qed.

Lemma fix_claims_concat :
  fix_claims lines
  = concat (map (written_for lines) (seq 0 (length lines))).
Proof. rewrite fix_claims_state_at. apply state_at_concat. Qed.

Lemma written_for_eq n :
  written_for lines n =
    if in_claims_items (state_at lines n)
       && String.eqb (strip (item lines n)) "type: object" then
      if found_both lines n && negb (has_map_type lines n (item lines n))
      then [item lines n; map_type_line (indent_of (item lines n))]
      else [item lines n; item lines n]
    else [item lines n].
Proof.
  unfold written_for. rewrite emitted_eq, state_at_i. reflexivity.
Qed.

Lemma written_for_chunk n : chunk (item lines n) (written_for lines n).
Proof.
  pose proof (emitted_chunk lines (state_at lines n)) as Hc.
  rewrite state_at_i in Hc. exact Hc.
Qed.

End Pass.

(** ** The lookahead and the already-present check, by position *)

Lemma lookahead_both window : forall found_array,
  lookahead window found_array = (true, true) <->
  exists q x,
    window !! q = Some x /\
    contains "x-kubernetes-list-type: set" x = true /\
    (forall q' y, q' < q -> window !! q' = Some y ->
       contains "x-kubernetes-list-type: set" y = false) /\
    (found_array = true \/
     exists r y, r <= q /\ window !! r = Some y /\
                 contains "type: array" y = true).
Proof.
  induction window as [|x w IH]; intros fa; simpl.
  - split; [discriminate|]. intros (q & y & Hq & _). discriminate.
  - destruct (contains "x-kubernetes-list-type: set" x) eqn:Hset.
    + split.
      * intros Heq. exists 0, x. split; [reflexivity|]. split; [exact Hset|].
        split; [intros; lia|].
        destruct (contains "type: array" x) eqn:Harr.
        -- right. exists 0, x. auto.
        -- left. congruence.
      * intros (q & y & Hq & Hy & Hfirst & Harr).
        destruct q as [|q].
        -- destruct Harr as [->|(r & z & Hr & Hz & Hcz)].
           ++ destruct (contains "type: array" x); reflexivity.
           ++ assert (r = 0) as -> by lia. simpl in Hz.
              injection Hz as <-. rewrite Hcz. reflexivity.
        -- specialize (Hfirst 0 x (Nat.lt_0_succ q) eq_refl). congruence.
    + rewrite IH. split.
      * intros (q & y & Hq & Hy & Hfirst & Harr).
        exists (S q), y. split; [exact Hq|]. split; [exact Hy|]. split.
        -- intros [|q'] z Hlt Hz; simpl in Hz.
           ++ injection Hz as <-. exact Hset.
           ++ apply (Hfirst q' z); [lia|exact Hz].
        -- destruct Harr as [Hfa|(r & z & Hr & Hz & Hcz)].
           ++ destruct (contains "type: array" x) eqn:Harr.
              ** right. exists 0, x. split; [lia|]. auto.
              ** left. exact Hfa.
           ++ right. exists (S r), z. split; [lia|]. auto.
      * intros (q & y & Hq & Hy & Hfirst & Harr).
        destruct q as [|q]; [simpl in Hq; congruence|].
        simpl in Hq. exists q, y. split; [exact Hq|]. split; [exact Hy|]. split.
        -- intros q' z Hlt Hz. apply (Hfirst (S q') z); [lia|exact Hz].
        -- destruct Harr as [->|(r & z & Hr & Hz & Hcz)].
           ++ left. destruct (contains "type: array" x); reflexivity.
           ++ destruct r as [|r].
              ** simpl in Hz. injection Hz as <-. left. rewrite Hcz. reflexivity.
              ** right. exists r, z. split; [lia|]. auto.
Qed.

Lemma lookahead_window_lookup (lines : list string) n q x :
  lookahead_window lines n !! q = Some x <->
  q < 4 /\ S n + q < length lines /\ x = item lines (S n + q).
Proof.
  unfold lookahead_window. rewrite lookup_take_Some, lookup_drop. split.
  - intros [Hx Hq]. split; [exact Hq|].
    pose proof (lookup_lt_Some _ _ _ Hx) as Hlt. split; [exact Hlt|].
    rewrite (item_lookup lines _ Hlt) in Hx. congruence.
  - intros (Hq & Hlt & ->). split; [|exact Hq]. apply item_lookup, Hlt.
Qed.

Lemma found_both_qualifies lines n :
  found_both lines n = true <-> qualifies lines n.
Proof.
  unfold found_both, qualifies.
  destruct (lookahead (lookahead_window lines n) false) as [fa fl] eqn:E.
  transitivity ((fa, fl) = (true, true)).
  { split; [intros [-> ->]%andb_true_iff; reflexivity|].
    intros [= -> ->]. reflexivity. }
  rewrite <- E, lookahead_both. split.
  - intros (q & x & Hq & Hx & Hfirst & [Hfa|(r & y & Hr & Hy & Hcy)]);
      [discriminate|].
    apply lookahead_window_lookup in Hq as (Hq4 & Hlen & ->).
    apply lookahead_window_lookup in Hy as (_ & _ & ->).
    exists q, r. repeat split; try assumption.
    intros q' Hq'. apply (Hfirst q' _ Hq').
    apply lookahead_window_lookup. repeat split; lia.
  - intros (q & r & Hr & Hq4 & Hlen & Hset & Hfirst & Harr).
    exists q, (item lines (S n + q)). split.
    { apply lookahead_window_lookup. auto. }
    split; [exact Hset|]. split.
    + intros q' y Hq' (_ & _ & ->)%lookahead_window_lookup. auto.
    + right. exists r, (item lines (S n + r)). split; [exact Hr|]. split; [|exact Harr].
      apply lookahead_window_lookup. repeat split; lia.
Qed.

Lemma has_map_type_already_annotated lines n :
  has_map_type lines n (item lines n) = true <-> already_annotated lines n.
Proof.
  unfold has_map_type, already_annotated, map_type_range, map_type_at.
  rewrite existsb_exists. split.
  - intros (k & Hin & Hk). apply in_seq in Hin.
    apply andb_true_iff in Hk as [[Hc Hne]%andb_true_iff Habs].
    apply negb_true_iff, Nat.eqb_neq in Hne. apply Z.ltb_lt in Habs.
    exists k. repeat split; try assumption; lia.
  - intros (k & Hne & Hlo & Hhi & Hlen & Hc & Habs).
    exists k. split; [apply in_seq; lia|].
    rewrite Hc. simpl. apply andb_true_iff. split.
    + apply negb_true_iff, Nat.eqb_neq, Hne.
    + apply Z.ltb_lt, Habs.
Qed.

Lemma has_map_type_not_annotated lines n :
  has_map_type lines n (item lines n) = false <-> ~ already_annotated lines n.
Proof.
  rewrite <- has_map_type_already_annotated.
  destruct (has_map_type _ _ _); split; congruence.
Qed.

(** ** The annotation line *)

Lemma lstrip_spaces k t : lstrip (spaces k +:+ t) = lstrip t.
Proof. induction k as [|k IH]; [reflexivity|exact IH]. Qed.

Lemma rstrip_append s t :
  rstrip t <> EmptyString -> rstrip (s +:+ t) = s +:+ rstrip t.
Proof.
  intros Ht. induction s as [|c s IH]; [reflexivity|].
  change (rstrip (String c (s +:+ t)) = String c (s +:+ rstrip t)).
  simpl rstrip. rewrite IH.
  destruct (s +:+ rstrip t) eqn:E; [|reflexivity].
  destruct s; [|discriminate E]. contradiction.
Qed.

Lemma strip_map_type_line k :
  strip (map_type_line k) = "x-kubernetes-map-type: atomic".
Proof.
  unfold strip, map_type_line.
  rewrite rstrip_append by (vm_compute; discriminate).
  rewrite lstrip_spaces. reflexivity.
Qed.

Lemma len_spaces_append k t : len (spaces k +:+ t) = k + len t.
Proof.
  induction k as [|k IH]; [reflexivity|].
  change (S (len (spaces k +:+ t)) = S (k + len t)). rewrite IH. reflexivity.
Qed.

Lemma indent_of_map_type_line k : indent_of (map_type_line k) = k.
Proof.
  unfold indent_of, map_type_line.
  rewrite lstrip_spaces, len_spaces_append.
  change (lstrip ("x-kubernetes-map-type: atomic" +:+ nl))
    with ("x-kubernetes-map-type: atomic" +:+ nl).
  lia.
Qed.

Lemma object_line_not_annotation line k :
  strip line = "type: object" -> line <> map_type_line k.
Proof.
  intros Hs ->. rewrite strip_map_type_line in Hs. discriminate.
Qed.

(** ** Invariants of the pass *)

Lemma copied_or_annotation_app lines out line c :
  copied_or_annotation lines out ->
  line ∈ lines ->
  chunk line c ->
  copied_or_annotation lines (out ++ c).
Proof.
  intros Hout Hin Hc p l Hp.
  apply lookup_app_Some in Hp as [Hp|[Hle Hp]].
  - destruct (Hout p l Hp) as [?|(q & line' & -> & Hq & ? & ? & ?)]; [left; assumption|].
    right. exists q, line'. repeat split; try assumption.
    apply lookup_app_l_Some, Hq.
  - destruct Hc as [|Hobj|Hobj];
      destruct (p - length out) as [|[|?]] eqn:E; simpl in Hp; try discriminate;
      injection Hp as <-; try (left; assumption).
    right. exists (length out), line.
    split; [lia|]. split; [apply list_lookup_middle; reflexivity|].
    repeat split; assumption.
Qed.

Lemma state_at_copied_or_annotation lines n :
  n <= length lines ->
  copied_or_annotation lines (fixed_lines (state_at lines n)).
Proof.
  induction n as [|n IH]; intros Hn.
  - intros p l Hp. discriminate.
  - rewrite fixed_lines_S.
    apply copied_or_annotation_app with (line := item lines n).
    + apply IH. lia.
    + apply list_elem_of_lookup_2 with (i := n), item_lookup. lia.
    + pose proof (emitted_chunk lines (state_at lines n)) as Hc.
      rewrite state_at_i in Hc. exact Hc.
Qed.

Lemma state_at_sublist lines n :
  n <= length lines ->
  take n lines `sublist_of` fixed_lines (state_at lines n).
Proof.
  induction n as [|n IH]; intros Hn.
  - apply sublist_nil_l.
  - rewrite fixed_lines_S, (take_S_r lines n (item lines n))
      by (apply item_lookup; lia).
    apply sublist_app; [apply IH; lia|].
    pose proof (emitted_chunk lines (state_at lines n)) as Hc.
    rewrite state_at_i in Hc.
    destruct Hc; repeat constructor.
Qed.

(** The length of the output: one line per line read, one more for each
    annotation and one more for each line written twice. *)
Lemma fix_claims_length lines :
  length (fix_claims lines) = length lines + insertions lines + repeats lines.
Proof.
  rewrite fix_claims_state_at. unfold insertions, repeats.
  generalize (length lines) as n. induction n as [|n IH]; [reflexivity|].
  rewrite fixed_lines_S, length_app, IH, seq_S, !filter_app, !length_app.
  fold (written_for lines n). simpl seq.
  rewrite !filter_cons, !filter_nil. cbv beta. rewrite !Nat.add_0_l.
  destruct (written_for_chunk lines n) as [|Hobj|Hobj].
  - rewrite !decide_False by discriminate. simpl. lia.
  - rewrite decide_False, decide_True by
      (try reflexivity; intros [= E]; exact (object_line_not_annotation _ _ Hobj E)).
    simpl. lia.
  - rewrite decide_True, decide_False by
      (try reflexivity; intros [= E];
       exact (object_line_not_annotation _ _ Hobj (eq_sym E))).
    simpl. lia.
Qed.

(** ** The decision at a [type: object] line *)

(** The lines written for [lines[n]] while the flag is set, when the
    line is a [type: object] line. *)
Lemma written_for_object lines n :
  in_claims_items (state_at lines n) = true ->
  strip (item lines n) = "type: object" ->
  written_for lines n =
    if found_both lines n && negb (has_map_type lines n (item lines n))
    then [item lines n; map_type_line (indent_of (item lines n))]
    else [item lines n; item lines n].
Proof.
  intros Hflag Hobj. rewrite written_for_eq, Hflag.
  apply String.eqb_eq in Hobj. rewrite Hobj. reflexivity.
Qed.

(** Outside a claims block every line is copied once. *)
Lemma written_for_flag_clear lines n :
  in_claims_items (state_at lines n) = false ->
  written_for lines n = [item lines n].
Proof. intros Hflag. rewrite written_for_eq, Hflag. reflexivity. Qed.

(** Without both lines in the lookahead window, no annotation is built:
    the pass writes copies of the line it read. *)
Lemma no_annotation_without_both lines n :
  ~ (exists j1 j2,
       n < j1 <= n + 4 /\ j1 < length lines /\
       n < j2 <= n + 4 /\ j2 < length lines /\
       contains "type: array" (item lines j1) = true /\
       contains "x-kubernetes-list-type: set" (item lines j2) = true) ->
  Forall (eq (item lines n)) (written_for lines n).
Proof.
  intros Hnone. rewrite written_for_eq.
  destruct (_ && String.eqb _ _); [|repeat constructor].
  destruct (found_both lines n) eqn:Hboth; [|repeat constructor].
  exfalso. apply Hnone.
  apply found_both_qualifies in Hboth
    as (q & r & Hr & Hq & Hlen & Hset & _ & Harr).
  exists (S n + r), (S n + q). repeat split; try assumption; lia.
Qed.

(** ** The given files *)

Lemma example_block_qualifies : qualifies example_block 7.
Proof.
  qualifies_at 1 0.
Qed.

Lemma no_claims_block_qualifies : qualifies no_claims_block 2.
Proof.
  qualifies_at 1 0.
Qed.

Lemma two_sites_block_qualifies n :
  n = 2 \/ n = 3 -> qualifies two_sites_block n.
Proof.
  intros [-> | ->]; [qualifies_at 2 1 | qualifies_at 1 0].
Qed.

(** ** Termination *)

(** C10: the main loop ends on every list of lines.  Each iteration adds
    exactly one to the read index, on every path; started from the
    initial state, the loop exits after [len(lines)] iterations with the
    index at [len(lines)], under any bound of at least that many
    iterations, and [fix_claims] returns the lines accumulated then. *)
Theorem main_loop_terminates (lines : list string) :
  (forall s, i (body lines s) = S (i s)) /\
  exists s,
    (forall fuel, length lines <= fuel -> run fuel lines init = Some s) /\
    i s = length lines /\
    fix_claims lines = fixed_lines s.
Proof.
  split; [apply body_i|].
  exists (state_at lines (length lines)). split; [|split].
  - intros fuel Hfuel. rewrite run_iter by (simpl; lia).
    simpl. rewrite Nat.sub_0_r. reflexivity.
  - apply state_at_i.
  - apply fix_claims_state_at.
Qed.

(** ** Preservation of the input *)

(** C7: the input is a subsequence of the output; no line is dropped or
    moved. *)
Theorem input_sublist_of_output (lines : list string) :
  lines `sublist_of` fix_claims lines.
Proof.
  rewrite fix_claims_state_at.
  rewrite <- (take_ge lines (length lines)) at 1 by lia.
  apply state_at_sublist. lia.
Qed.

(** C8: every line of the output is a line of the input, or else it
    comes right after a [type: object] line of the input and is made of
    as many spaces as that line has leading whitespace characters, then
    [x-kubernetes-map-type: atomic], then the newline. *)
Theorem output_line_origin (lines : list string) (p : nat) (l : string) :
  fix_claims lines !! p = Some l ->
  l ∈ lines \/
  exists q line,
    p = S q /\ fix_claims lines !! q = Some line /\ line ∈ lines /\
    strip line = "type: object" /\
    l = spaces (indent_of line) +:+ "x-kubernetes-map-type: atomic" +:+ nl.
Proof.
  rewrite fix_claims_state_at.
  apply state_at_copied_or_annotation. lia.
Qed.

(** The annotation line of the patched example, traced to its origin. *)
Lemma output_line_origin_witness :
  fix_claims example_block !! 8
  = Some (ln "        x-kubernetes-map-type: atomic") /\
  (ln "        x-kubernetes-map-type: atomic" ∈ example_block \/
   exists q line,
     8 = S q /\ fix_claims example_block !! q = Some line /\
     line ∈ example_block /\ strip line = "type: object" /\
     ln "        x-kubernetes-map-type: atomic"
     = spaces (indent_of line) +:+ "x-kubernetes-map-type: atomic" +:+ nl).
Proof.
  split; [evaluate|].
  apply (output_line_origin example_block 8).
  evaluate.
Defined.

(** ** The targeted insertion *)

(** C6: on the ten lines of the example, the pass writes the line
    [        x-kubernetes-map-type: atomic] right after the
    [type: object] line, with the 8 spaces of that line, and leaves
    every other line as it is and where it is. *)
Theorem example_block_patched :
  length example_block = 10 /\
  item example_block 7 = ln "        type: object" /\
  indent_of (item example_block 7) = 8 /\
  fix_claims example_block
  = take 8 example_block
    ++ [ln "        x-kubernetes-map-type: atomic"]
    ++ drop 8 example_block /\
  map_type_line (indent_of (item example_block 7))
  = ln "        x-kubernetes-map-type: atomic" /\
  fix_claims example_block = patched_block.
Proof. repeat split; evaluate. Qed.

(** ** The flag and the insertion *)

(** C2 as stated is false: with no [claims:] line above it, the
    qualifying [type: object] line gets no annotation and the file is
    written back unchanged. *)
Lemma flag_gates_insertion_counterexample :
  strip (item no_claims_block 2) = "type: object" /\
  contains "type: array" (item no_claims_block 3) = true /\
  contains "x-kubernetes-list-type: set" (item no_claims_block 4) = true /\
  Forall (fun l => contains "x-kubernetes-map-type" l = false) no_claims_block /\
  in_claims_items (state_at no_claims_block 2) = false /\
  fix_claims no_claims_block = no_claims_block.
Proof.
  split; [evaluate|]. split; [evaluate|].
  split; [evaluate|]. split; [repeat constructor|].
  split; evaluate.
Qed.

(** C2, as the code has it: the flag gates the check.  A [type: object]
    line whose lookahead finds both and that is not annotated already
    gets the annotation line when [in_claims_items] is set at the head of
    its iteration, and is copied unchanged, with nothing inserted, when
    the flag is clear. *)
Theorem insertion_gated_by_flag (lines : list string) (n : nat) :
  strip (item lines n) = "type: object" ->
  qualifies lines n ->
  ~ already_annotated lines n ->
  (in_claims_items (state_at lines n) = true ->
   written_for lines n
   = [item lines n; map_type_line (indent_of (item lines n))]) /\
  (in_claims_items (state_at lines n) = false ->
   written_for lines n = [item lines n]).
Proof.
  intros Hobj Hq Hnot. split; intros Hflag.
  - rewrite written_for_object by assumption.
    apply found_both_qualifies in Hq. apply has_map_type_not_annotated in Hnot.
    rewrite Hq, Hnot. reflexivity.
  - apply written_for_flag_clear, Hflag.
Qed.

(** The gate at work: the example block is annotated under its
    [claims:] key, the same pattern under [limits:] is not. *)
Lemma insertion_gated_by_flag_witness :
  (in_claims_items (state_at example_block 7) = true /\
   written_for example_block 7
   = [ln "        type: object"; ln "        x-kubernetes-map-type: atomic"]) /\
  (in_claims_items (state_at no_claims_block 2) = false /\
   written_for no_claims_block 2 = [ln "    type: object"]).
Proof.
  split; (split; [evaluate|]).
  - apply (insertion_gated_by_flag example_block 7).
    + evaluate.
    + exact example_block_qualifies.
    + apply has_map_type_not_annotated. evaluate.
    + evaluate.
  - apply (insertion_gated_by_flag no_claims_block 2).
    + evaluate.
    + exact no_claims_block_qualifies.
    + apply has_map_type_not_annotated. evaluate.
    + evaluate.
Defined.

(** ** The window of the already-present check *)

(** C4 as stated is false: an annotation 5 lines after the
    [type: object] line, at the same indentation, is not seen by the
    check, and the annotation is inserted. *)
Lemma fifth_line_after_counterexample :
  strip (item late_annotation_block 2) = "type: object" /\
  found_both late_annotation_block 2 = true /\
  contains "x-kubernetes-map-type" (item late_annotation_block (2 + 5)) = true /\
  indent_of (item late_annotation_block (2 + 5))
  = indent_of (item late_annotation_block 2) /\
  written_for late_annotation_block 2
  = [ln "    type: object"; ln "    x-kubernetes-map-type: atomic"] /\
  fix_claims late_annotation_block
  = take 3 late_annotation_block
    ++ [ln "    x-kubernetes-map-type: atomic"]
    ++ drop 3 late_annotation_block.
Proof. repeat split; evaluate. Qed.

(** C4, as the code has it: the already-present check looks at the lines
    from 5 before to 4 after the [type: object] line, the line itself
    left out.  When one of them contains [x-kubernetes-map-type] with a
    leading-whitespace count less than 2 away from that of the line, no
    annotation line is written for the line. *)
Theorem already_present_window (lines : list string) (n k : nat) :
  strip (item lines n) = "type: object" ->
  k <> n -> n <= k + 5 -> k < n + 5 -> k < length lines ->
  contains "x-kubernetes-map-type" (item lines k) = true ->
  (Z.abs (Z.of_nat (indent_of (item lines k))
          - Z.of_nat (indent_of (item lines n))) < 2)%Z ->
  Forall (eq (item lines n)) (written_for lines n) /\
  map_type_line (indent_of (item lines n)) ∉ written_for lines n.
Proof.
  intros Hobj Hne Hlo Hhi Hlen Hc Habs.
  assert (Hhas : has_map_type lines n (item lines n) = true).
  { apply has_map_type_already_annotated. exists k. repeat split; assumption. }
  assert (Hall : Forall (eq (item lines n)) (written_for lines n)).
  { rewrite written_for_eq, Hhas, andb_false_r.
    destruct (_ && _); repeat constructor. }
  split; [exact Hall|].
  intros Hin. rewrite Forall_forall in Hall.
  exact (object_line_not_annotation _ _ Hobj (Hall _ Hin)).
Qed.

(** The check at work on the patched block: the annotation is the line
    after the [type: object] line, and no second one is built. *)
Lemma already_present_window_witness :
  contains "x-kubernetes-map-type" (item patched_block 8) = true /\
  indent_of (item patched_block 8) = indent_of (item patched_block 7) /\
  Forall (eq (item patched_block 7)) (written_for patched_block 7) /\
  map_type_line (indent_of (item patched_block 7)) ∉ written_for patched_block 7.
Proof.
  split; [evaluate|]. split; [evaluate|].
  apply (already_present_window patched_block 7 8).
  - evaluate.
  - lia.
  - lia.
  - lia.
  - simpl; lia.
  - evaluate.
  - evaluate.
Defined.

(** ** The checks read the input *)

(** C9 as stated is false: two [type: object] lines next to each
    other, each with a lookahead that finds both, in an input without
    any [x-kubernetes-map-type] line, get no annotation when no
    [claims:] line was read before them; the file is written back as it
    was. *)
Lemma unannotated_sites_without_flag_counterexample :
  strip (item two_sites_no_claims_block 2) = "type: object" /\
  strip (item two_sites_no_claims_block 3) = "type: object" /\
  found_both two_sites_no_claims_block 2 = true /\
  found_both two_sites_no_claims_block 3 = true /\
  Forall (fun l => contains "x-kubernetes-map-type" l = false)
         two_sites_no_claims_block /\
  written_for two_sites_no_claims_block 2 = [ln "    type: object"] /\
  written_for two_sites_no_claims_block 3 = [ln "    type: object"] /\
  fix_claims two_sites_no_claims_block = two_sites_no_claims_block.
Proof.
  split; [evaluate|]. split; [evaluate|]. split; [evaluate|].
  split; [evaluate|]. split; [repeat constructor|].
  repeat split; evaluate.
Qed.

(** C9, as the code has it: the lookahead and the already-present check
    read the input list only.  What an iteration appends depends on the
    index, the flag and the input, not on the output built so far; and
    in an input where no line contains [x-kubernetes-map-type], every
    [type: object] line read with the flag set and whose lookahead finds
    both gets its annotation line, whatever was inserted for the lines
    before it. *)
Theorem checks_read_input_only (lines : list string) (n : nat) :
  (forall s s',
     i s = i s' -> in_claims_items s = in_claims_items s' ->
     emitted lines s = emitted lines s') /\
  ((forall l, l ∈ lines -> contains "x-kubernetes-map-type" l = false) ->
   in_claims_items (state_at lines n) = true ->
   strip (item lines n) = "type: object" ->
   qualifies lines n ->
   written_for lines n
   = [item lines n; map_type_line (indent_of (item lines n))]).
Proof.
  split.
  { intros s s' Hi Hflag. rewrite !emitted_eq, Hi, Hflag. reflexivity. }
  intros Hclean Hflag Hobj Hq.
  rewrite written_for_object by assumption.
  apply found_both_qualifies in Hq. rewrite Hq.
  replace (has_map_type lines n (item lines n)) with false; [reflexivity|].
  symmetry. apply has_map_type_not_annotated.
  intros (k & _ & _ & _ & Hlen & Hc & _).
  rewrite Hclean in Hc; [discriminate|].
  apply list_elem_of_lookup_2 with (i := k), item_lookup, Hlen.
Qed.

(** Two [type: object] lines one after the other: both are annotated in
    one pass, the second one although the annotation of the first is by
    then the line before it in the output. *)
Lemma checks_read_input_only_witness :
  Forall (fun l => contains "x-kubernetes-map-type" l = false) two_sites_block /\
  written_for two_sites_block 2
  = [ln "    type: object"; ln "    x-kubernetes-map-type: atomic"] /\
  written_for two_sites_block 3
  = [ln "    type: object"; ln "    x-kubernetes-map-type: atomic"] /\
  fix_claims two_sites_block
  = [ ln "claims:";
      ln "  items:";
      ln "    type: object";
      ln "    x-kubernetes-map-type: atomic";
      ln "    type: object";
      ln "    x-kubernetes-map-type: atomic";
      ln "  type: array";
      ln "  x-kubernetes-list-type: set" ].
Proof.
  assert (Hclean : Forall (fun l => contains "x-kubernetes-map-type" l = false)
                          two_sites_block) by repeat constructor.
  split; [exact Hclean|]. rewrite Forall_forall in Hclean.
  split; [|split].
  - apply (proj2 (checks_read_input_only two_sites_block 2) Hclean).
    + evaluate.
    + evaluate.
    + apply two_sites_block_qualifies. left. reflexivity.
  - apply (proj2 (checks_read_input_only two_sites_block 3) Hclean).
    + evaluate.
    + evaluate.
    + apply two_sites_block_qualifies. right. reflexivity.
  - evaluate.
Defined.


(** ** Where the pass writes a line twice *)

(** C1 fails on the example block.  The second pass finds the annotation
    of the first one, builds none, and then falls through to the copy at
    the end of the loop body: the [type: object] line, already appended,
    is appended again, so the second output has one line more. *)
Theorem second_pass_repeats_object_line :
  fix_claims example_block = patched_block /\
  fix_claims (fix_claims example_block)
  = take 8 patched_block ++ [ln "        type: object"] ++ drop 8 patched_block /\
  length (fix_claims (fix_claims example_block))
  = S (length (fix_claims example_block)) /\
  fix_claims (fix_claims example_block) <> fix_claims example_block.
Proof.
  repeat split; try (evaluate).
  vm_compute. discriminate.
Qed.

(** C3 fails on a claims block without the list type.  No annotation is
    inserted, yet the output has one line more than the input: the
    [type: object] line is written twice. *)
Theorem length_grows_without_insertion :
  length plain_array_block = 4 /\
  insertions plain_array_block = 0 /\
  length (fix_claims plain_array_block) = 5 /\
  fix_claims plain_array_block
  = [ ln "claims:";
      ln "  items:";
      ln "    type: object";
      ln "    type: object";
      ln "  type: array" ].
Proof. repeat split; evaluate. Qed.

(** C5 fails on a claims block whose list is a map.  None of the four
    lines after the [type: object] line contains
    [x-kubernetes-list-type: set]; no annotation is built, but the pass
    writes the [type: object] line twice, one line more at that place. *)
Theorem object_line_repeated_without_set :
  strip (item map_list_block 2) = "type: object" /\
  Forall (fun l => contains "x-kubernetes-list-type: set" l = false)
         (lookahead_window map_list_block 2) /\
  in_claims_items (state_at map_list_block 2) = true /\
  written_for map_list_block 2
  = [ln "    type: object"; ln "    type: object"] /\
  fix_claims map_list_block
  = take 3 map_list_block ++ [ln "    type: object"] ++ drop 3 map_list_block.
Proof.
  split; [evaluate|]. split.
  { repeat constructor. }
  repeat split; evaluate.
Qed.

(** ** The flag, step by step *)

Lemma body_flag lines s :
  in_claims_items (body lines s) =
    if in_claims_items s
    then negb (truthy (strip (item lines (i s)))
               && (indent_of (item lines (i s)) <=? claims_indent s))
    else contains "claims:" (item lines (i s)).
Proof.
  unfold body. destruct (in_claims_items s); rewrite ?andb_false_r; simpl.
  - destruct (truthy _ && _), (String.eqb _ _); simpl;
      try destruct (lookahead _ _) as [fa fl];
      try destruct (fa && fl && _); reflexivity.
  - rewrite andb_true_r. destruct (contains _ _); reflexivity.
Qed.

Lemma body_claims_indent lines s :
  claims_indent (body lines s) =
    if negb (in_claims_items s) && contains "claims:" (item lines (i s))
    then indent_of (item lines (i s))
    else claims_indent s.
Proof.
  unfold body. destruct (in_claims_items s); rewrite ?andb_false_r; simpl.
  - destruct (String.eqb _ _); simpl;
      try destruct (lookahead _ _) as [fa fl];
      try destruct (fa && fl && _); reflexivity.
  - rewrite andb_true_r. destruct (contains _ _); reflexivity.
Qed.

Lemma flag_S lines n :
  in_claims_items (state_at lines (S n)) =
    if in_claims_items (state_at lines n)
    then negb (truthy (strip (item lines n))
               && (indent_of (item lines n) <=? claims_indent (state_at lines n)))
    else contains "claims:" (item lines n).
Proof. rewrite state_at_S, body_flag, state_at_i. reflexivity. Qed.

Lemma claims_indent_S lines n :
  claims_indent (state_at lines (S n)) =
    if negb (in_claims_items (state_at lines n))
       && contains "claims:" (item lines n)
    then indent_of (item lines n)
    else claims_indent (state_at lines n).
Proof. rewrite state_at_S, body_claims_indent, state_at_i. reflexivity. Qed.

(** While the flag is clear and no [claims:] line is read, the flag
    stays clear. *)
Lemma flag_stays_clear lines n m :
  n <= m ->
  in_claims_items (state_at lines n) = false ->
  (forall j, n <= j < m -> contains "claims:" (item lines j) = false) ->
  in_claims_items (state_at lines m) = false.
Proof.
  induction 1 as [|m Hle IH]; intros Hflag Hnone; [exact Hflag|].
  rewrite flag_S, IH; [apply Hnone; lia|exact Hflag|].
  intros j Hj. apply Hnone. lia.
Qed.

(** ** Lists of single lines *)

Lemma items_of_lines (lines : list string) :
  map (item lines) (seq 0 (length lines)) = lines.
Proof.
  apply list_eq. intros k. rewrite list_lookup_fmap.
  destruct (decide (k < length lines)) as [Hk|Hk].
  - rewrite lookup_seq_lt by exact Hk. simpl.
    symmetry. apply item_lookup, Hk.
  - rewrite lookup_seq_ge by lia. simpl.
    symmetry. apply lookup_ge_None. lia.
Qed.

Lemma concat_singletons (lines : list string) (ns : list nat) :
  concat (map (fun n => [item lines n]) ns) = map (item lines) ns.
Proof. induction ns as [|n ns IH]; [reflexivity|]. simpl. rewrite IH. reflexivity. Qed.

(** The output is the input when every line is written once. *)
Lemma fix_claims_all_single lines :
  (forall n, n < length lines -> written_for lines n = [item lines n]) ->
  fix_claims lines = lines.
Proof.
  intros Hall. rewrite fix_claims_concat.
  transitivity (concat (map (fun n => [item lines n]) (seq 0 (length lines)))).
  - f_equal. apply map_ext_in. intros n Hn. apply in_seq in Hn.
    apply Hall. lia.
  - rewrite concat_singletons. apply items_of_lines.
Qed.

Lemma written_for_length lines n :
  1 <= length (written_for lines n) <= 2.
Proof. destruct (written_for_chunk lines n); simpl; lia. Qed.

Lemma fixed_lines_growth lines n m :
  n <= m ->
  length (fixed_lines (state_at lines n)) + (m - n)
  <= length (fixed_lines (state_at lines m)).
Proof.
  induction 1 as [|m Hle IH]; [lia|].
  rewrite fixed_lines_S, length_app.
  fold (written_for lines m).
  pose proof (written_for_length lines m). lia.
Qed.

Lemma fixed_lines_at_least lines n :
  n <= length (fixed_lines (state_at lines n)).
Proof.
  pose proof (fixed_lines_growth lines 0 n (Nat.le_0_l n)) as H.
  simpl in H. lia.
Qed.

(** ** Files the pass leaves as they are *)

Lemma no_claims_key_unchanged lines :
  (forall l, l ∈ lines -> contains "claims:" l = false) ->
  fix_claims lines = lines.
Proof.
  intros Hnone. apply fix_claims_all_single. intros n Hn.
  apply written_for_flag_clear.
  apply (flag_stays_clear lines 0 n); [lia|reflexivity|].
  intros j Hj. apply Hnone.
  apply list_elem_of_lookup_2 with (i := j), item_lookup. lia.
Qed.

(** X1: a file in which no line contains [claims:] is written back line
    for line as it was read. *)
Theorem unchanged_without_claims_key (lines : list string) :
  (forall l, l ∈ lines -> contains "claims:" l = false) ->
  fix_claims lines = lines.
Proof. apply no_claims_key_unchanged. Qed.

Lemma unchanged_without_claims_key_witness :
  Forall (fun l => contains "claims:" l = false)
         (drop 1 no_claims_block ++ drop 5 late_annotation_block) /\
  fix_claims (drop 1 no_claims_block ++ drop 5 late_annotation_block)
  = drop 1 no_claims_block ++ drop 5 late_annotation_block.
Proof.
  assert (Hclean : Forall (fun l => contains "claims:" l = false)
            (drop 1 no_claims_block ++ drop 5 late_annotation_block))
    by repeat constructor.
  split; [exact Hclean|].
  apply unchanged_without_claims_key. apply Forall_forall, Hclean.
Defined.

(** X2: from a line read with the flag clear up to the next line that
    contains [claims:], the flag stays clear and the lines are copied to
    the output one for one. *)
Theorem copied_until_next_claims_key (lines : list string) (n m : nat) :
  n <= m ->
  in_claims_items (state_at lines n) = false ->
  (forall j, n <= j < m -> contains "claims:" (item lines j) = false) ->
  in_claims_items (state_at lines m) = false /\
  fixed_lines (state_at lines m)
  = fixed_lines (state_at lines n) ++ map (item lines) (seq n (m - n)).
Proof.
  intros Hle Hflag Hnone.
  split; [exact (flag_stays_clear lines n m Hle Hflag Hnone)|].
  induction Hle as [|m Hle IH].
  - rewrite Nat.sub_diag. simpl. rewrite app_nil_r. reflexivity.
  - rewrite fixed_lines_S, IH by (intros j Hj; apply Hnone; lia).
    fold (written_for lines m).
    rewrite written_for_flag_clear
      by (apply (flag_stays_clear lines n m Hle Hflag);
          intros j Hj; apply Hnone; lia).
    replace (S m - n) with (S (m - n)) by lia.
    rewrite seq_S, map_app, <- (assoc_L (++)). simpl.
    replace (n + (m - n)) with m by lia. reflexivity.
Qed.

Lemma copied_until_next_claims_key_witness :
  in_claims_items (state_at late_annotation_block 6) = false /\
  in_claims_items (state_at late_annotation_block 9) = false /\
  fixed_lines (state_at late_annotation_block 9)
  = fixed_lines (state_at late_annotation_block 6)
    ++ [ ln "  items:";
         ln "    x-kubernetes-map-type: atomic";
         ln "    type: object" ].
Proof.
  split; [evaluate|].
  apply (copied_until_next_claims_key late_annotation_block 6 9).
  - lia.
  - evaluate.
  - intros j Hj.
    assert (j = 6 \/ j = 7 \/ j = 8) as [-> | [-> | ->]] by lia; evaluate.
Defined.

(** X3: the output equals the input exactly when no [type: object] line
    is read with the flag set.  Inside a claims block such a line is
    always followed by one more line, its annotation or itself. *)
Theorem unchanged_iff_no_object_line_in_block (lines : list string) :
  fix_claims lines = lines <->
  forall n, n < length lines ->
    ~ (in_claims_items (state_at lines n) = true /\
       strip (item lines n) = "type: object").
Proof.
  split.
  - intros Heq n Hn [Hflag Hobj].
    assert (Hlen : length (fix_claims lines) = length lines) by (rewrite Heq; reflexivity).
    rewrite fix_claims_state_at in Hlen.
    pose proof (fixed_lines_growth lines (S n) (length lines) Hn) as Hgrow.
    rewrite fixed_lines_S, length_app in Hgrow.
    fold (written_for lines n) in Hgrow.
    pose proof (fixed_lines_at_least lines n) as Hlow.
    rewrite (written_for_object lines n Hflag Hobj) in Hgrow.
    destruct (_ && _) in Hgrow; simpl in Hgrow; lia.
  - intros Hnone. apply fix_claims_all_single. intros n Hn.
    rewrite written_for_eq.
    destruct (in_claims_items (state_at lines n)) eqn:Hflag; [|reflexivity].
    destruct (String.eqb _ _) eqn:Hobj; [|reflexivity].
    exfalso. apply (Hnone n Hn). split; [exact Hflag|].
    apply String.eqb_eq, Hobj.
Qed.

(** ** The shape and the size of the output *)

(** X4: the output is the input with, after some of its [type: object]
    lines, one line more: each input line gives one piece of the output,
    the line itself alone, or the line followed by itself or by its
    annotation line when it is a [type: object] line, and the output is
    these pieces in the order of the input. *)
Theorem output_by_pieces (lines : list string) :
  exists pieces,
    fix_claims lines = concat pieces /\
    Forall2 chunk lines pieces.
Proof.
  exists (map (written_for lines) (seq 0 (length lines))).
  split; [apply fix_claims_concat|].
  apply Forall2_same_length_lookup. split.
  - rewrite length_map, length_seq. reflexivity.
  - intros k x y Hx Hy.
    pose proof (lookup_lt_Some _ _ _ Hx) as Hk.
    rewrite (item_lookup lines k Hk) in Hx. injection Hx as <-.
    rewrite list_lookup_fmap, lookup_seq_lt in Hy by exact Hk.
    simpl in Hy. injection Hy as <-. apply written_for_chunk.
Qed.

(** X5: the output has as many lines as the input, plus one for each
    annotation inserted and one for each line written twice. *)
Theorem output_length (lines : list string) :
  length (fix_claims lines) = length lines + insertions lines + repeats lines.
Proof. apply fix_claims_length. Qed.

Lemma object_lines_take_S (lines : list string) n :
  n < length lines ->
  length (object_lines (take (S n) lines))
  = length (object_lines (take n lines))
    + (if decide (strip (item lines n) = "type: object") then 1 else 0).
Proof.
  intros Hn. unfold object_lines.
  rewrite (take_S_r lines n (item lines n)) by (apply item_lookup, Hn).
  rewrite filter_app, length_app, filter_cons, filter_nil.
  destruct (decide _); reflexivity.
Qed.

(** X6: the output is never shorter than the input, and longer by at
    most the number of [type: object] lines of the input. *)
Theorem output_length_bounds (lines : list string) :
  length lines <= length (fix_claims lines)
  <= length lines + length (object_lines lines).
Proof.
  rewrite fix_claims_state_at. split; [apply fixed_lines_at_least|].
  assert (H : forall n, n <= length lines ->
            length (fixed_lines (state_at lines n))
            <= n + length (object_lines (take n lines))).
  { induction n as [|n IH]; intros Hn; [simpl; lia|].
    rewrite fixed_lines_S, length_app, object_lines_take_S by lia.
    fold (written_for lines n). specialize (IH ltac:(lia)).
    destruct (written_for_chunk lines n) as [|Hobj|Hobj]; simpl;
      try rewrite decide_True by exact Hobj; lia. }
  specialize (H (length lines) ltac:(lia)).
  rewrite take_ge in H by lia. exact H.
Qed.

(** ** When a line is followed by one more *)

(** X7: the annotation line is written after line [n] exactly when the
    line is read with the flag set, is a [type: object] line, the
    lookahead finds both and no line of the window of the
    already-present check matches. *)
Theorem annotation_written_iff (lines : list string) (n : nat) :
  written_for lines n
  = [item lines n; map_type_line (indent_of (item lines n))] <->
  in_claims_items (state_at lines n) = true /\
  strip (item lines n) = "type: object" /\
  qualifies lines n /\
  ~ already_annotated lines n.
Proof.
  rewrite <- found_both_qualifies, <- has_map_type_not_annotated.
  rewrite written_for_eq. split.
  - destruct (in_claims_items (state_at lines n)); [|discriminate].
    destruct (String.eqb _ _) eqn:Hobj; [|discriminate].
    apply String.eqb_eq in Hobj. simpl.
    destruct (found_both lines n), (has_map_type lines n (item lines n));
      simpl; intros H;
      first [ injection H as E; destruct (object_line_not_annotation _ _ Hobj E)
            | repeat split; first [reflexivity | exact Hobj] ].
  - intros (-> & Hobj & -> & ->). apply String.eqb_eq in Hobj.
    rewrite Hobj. reflexivity.
Qed.

(** X8: line [n] is written twice exactly when it is read with the flag
    set, is a [type: object] line, and gets no annotation: the lookahead
    does not find both, or a line of the window of the already-present
    check matches. *)
Theorem line_written_twice_iff (lines : list string) (n : nat) :
  written_for lines n = [item lines n; item lines n] <->
  in_claims_items (state_at lines n) = true /\
  strip (item lines n) = "type: object" /\
  (~ qualifies lines n \/ already_annotated lines n).
Proof.
  rewrite <- found_both_qualifies, <- has_map_type_already_annotated.
  rewrite written_for_eq. split.
  - destruct (in_claims_items (state_at lines n)); [|discriminate].
    destruct (String.eqb _ _) eqn:Hobj; [|discriminate].
    apply String.eqb_eq in Hobj. simpl.
    destruct (found_both lines n), (has_map_type lines n (item lines n));
      simpl; intros H;
      first [ injection H as E; symmetry in E;
              destruct (object_line_not_annotation _ _ Hobj E)
            | split; [reflexivity|]; split; [exact Hobj|];
              first [left; discriminate | right; reflexivity] ].
  - intros (-> & Hobj & Hno). apply String.eqb_eq in Hobj.
    rewrite Hobj. simpl.
    destruct (found_both lines n), (has_map_type lines n (item lines n));
      simpl; try reflexivity.
    destruct Hno as [Hno|Hno]; [destruct Hno; reflexivity|discriminate].
Qed.

(** ** The flag over the file *)

(** X9: the flag is set at the head of iteration [n] exactly when line
    [n] lies inside a claims block: some earlier line [e] contains
    [claims:], was read with the flag clear, and no line between them
    that is not blank is indented as little as [e].  [claims_indent]
    then is the indentation of [e].  A [claims:] line read inside an open
    block does not open a new one, and blank lines never close one. *)
Theorem flag_set_iff_in_block (lines : list string) (n : nat) :
  (in_claims_items (state_at lines n) = true <->
   exists e, in_block lines e n) /\
  (forall e, in_block lines e n ->
     claims_indent (state_at lines n) = indent_of (item lines e)).
Proof.
  assert (Hinv : forall n,
    (in_claims_items (state_at lines n) = true ->
     exists e, in_block lines e n) /\
    (forall e, in_block lines e n ->
       in_claims_items (state_at lines n) = true /\
       claims_indent (state_at lines n) = indent_of (item lines e))).
  { clear n. induction n as [|n [IHflag IHblock]].
    - split; [discriminate|]. intros e (He & _). lia.
    - split.
      + rewrite flag_S.
        destruct (in_claims_items (state_at lines n)) eqn:Hflag.
        * intros Hstay. apply negb_true_iff in Hstay.
          destruct (IHflag eq_refl) as (e & Hblock).
          destruct (IHblock e Hblock) as [_ Hindent].
          destruct Hblock as (He & Hc & Hclear & Hdeep).
          exists e. split; [lia|]. split; [exact Hc|]. split; [exact Hclear|].
          intros j Hj Hj_text.
          destruct (decide (j = n)) as [->|Hne]; [|apply Hdeep; [lia|exact Hj_text]].
          rewrite Hj_text, Hindent in Hstay. simpl in Hstay.
          apply Nat.leb_gt in Hstay. exact Hstay.
        * intros Hc. exists n. split; [lia|]. split; [exact Hc|].
          split; [exact Hflag|]. intros j Hj. lia.
      + intros e (He & Hc & Hclear & Hdeep).
        rewrite flag_S, claims_indent_S.
        destruct (decide (e = n)) as [->|Hne].
        * rewrite Hclear, Hc. simpl. split; reflexivity.
        * assert (Hblock : in_block lines e n).
          { split; [lia|]. split; [exact Hc|]. split; [exact Hclear|].
            intros j Hj. apply Hdeep. lia. }
          destruct (IHblock e Hblock) as [Hflag Hindent].
          rewrite Hflag, Hindent. simpl. split; [|reflexivity].
          apply negb_true_iff.
          destruct (truthy (strip (item lines n))) eqn:Htext; [|reflexivity].
          simpl. apply Nat.leb_gt. apply Hdeep; [lia|exact Htext]. }
  destruct (Hinv n) as [Hflag Hblock]. split; [split|].
  - exact Hflag.
  - intros (e & He). apply (Hblock e He).
  - intros e He. apply (Hblock e He).
Qed.

(** ** The two scans *)

(** X10: the inner [while] loop ends with both flags set exactly when,
    among the lines [lines[n+1 : n+5]] that exist, the first one that
    contains [x-kubernetes-list-type: set] is, or comes after, a line
    that contains [type: array].  An array line that only comes after the
    first list-type line is not seen: the scan stops there. *)
Theorem lookahead_finds_both_iff (lines : list string) (n : nat) :
  lookahead (lookahead_window lines n) false = (true, true) <->
  qualifies lines n.
Proof.
  rewrite <- found_both_qualifies. unfold found_both.
  destruct (lookahead _ _) as [fa fl]. split.
  - intros [= -> ->]. reflexivity.
  - intros [-> ->]%andb_true_iff. reflexivity.
Qed.

(** X11: the [for k] loop sets [has_map_type] exactly when some line
    [k] other than [n], with [n - 5 <= k < n + 5] and inside the file,
    contains [x-kubernetes-map-type] and has a leading-whitespace count
    less than 2 away from that of line [n]. *)
Theorem has_map_type_iff (lines : list string) (n : nat) :
  has_map_type lines n (item lines n) = true <->
  exists k,
    k <> n /\ n <= k + 5 /\ k < n + 5 /\ k < length lines /\
    contains "x-kubernetes-map-type" (item lines k) = true /\
    (Z.abs (Z.of_nat (indent_of (item lines k))
            - Z.of_nat (indent_of (item lines n))) < 2)%Z.
Proof. apply has_map_type_already_annotated. Qed.

(** ** The annotation line, read again *)

Lemma contains_marker_map_type_line k :
  contains "x-kubernetes-map-type" (map_type_line k) = true.
Proof.
  unfold map_type_line. induction k as [|k IH]; [reflexivity|].
  change (spaces (S k) +:+ ?t) with (String " "%char (spaces k +:+ t)).
  cbn [contains]. rewrite IH. apply orb_true_r.
Qed.

Lemma contains_claims_map_type_line k :
  contains "claims:" (map_type_line k) = false.
Proof.
  unfold map_type_line. induction k as [|k IH]; [reflexivity|].
  change (spaces (S k) +:+ ?t) with (String " "%char (spaces k +:+ t)).
  cbn [contains]. rewrite IH. reflexivity.
Qed.

(** X12: the line the pass builds for an indentation [k] has [k] as its
    own leading-whitespace count and strips to
    [x-kubernetes-map-type: atomic]; read again, it carries the marker
    the already-present check looks for, it is no [type: object] line
    and it does not open a claims block. *)
Theorem map_type_line_read_again (k : nat) :
  indent_of (map_type_line k) = k /\
  strip (map_type_line k) = "x-kubernetes-map-type: atomic" /\
  contains "x-kubernetes-map-type" (map_type_line k) = true /\
  strip (map_type_line k) <> "type: object" /\
  contains "claims:" (map_type_line k) = false.
Proof.
  split; [apply indent_of_map_type_line|].
  split; [apply strip_map_type_line|].
  split; [apply contains_marker_map_type_line|].
  split; [rewrite strip_map_type_line; discriminate|].
  apply contains_claims_map_type_line.
Qed.

(** X13: a [type: object] line directly followed by the annotation line
    built for it gets no second annotation, in a claims block or not:
    what the pass inserted stops the insertion when the file is patched
    again. *)
Theorem annotated_line_not_annotated_again (lines : list string) (n : nat) :
  strip (item lines n) = "type: object" ->
  S n < length lines ->
  item lines (S n) = map_type_line (indent_of (item lines n)) ->
  Forall (eq (item lines n)) (written_for lines n) /\
  map_type_line (indent_of (item lines n)) ∉ written_for lines n.
Proof.
  intros Hobj Hlen Hnext.
  assert (Hhas : has_map_type lines n (item lines n) = true).
  { apply has_map_type_already_annotated. exists (S n).
    split; [lia|]. split; [lia|]. split; [lia|]. split; [exact Hlen|].
    rewrite Hnext. split; [apply contains_marker_map_type_line|].
    rewrite indent_of_map_type_line. lia. }
  assert (Hall : Forall (eq (item lines n)) (written_for lines n)).
  { rewrite written_for_eq, Hhas, andb_false_r.
    destruct (_ && _); repeat constructor. }
  split; [exact Hall|].
  intros Hin. rewrite Forall_forall in Hall.
  exact (object_line_not_annotation _ _ Hobj (Hall _ Hin)).
Qed.

Lemma annotated_line_not_annotated_again_witness :
  item patched_block 8 = map_type_line (indent_of (item patched_block 7)) /\
  Forall (eq (item patched_block 7)) (written_for patched_block 7) /\
  map_type_line (indent_of (item patched_block 7)) ∉ written_for patched_block 7.
Proof.
  split; [evaluate|].
  apply (annotated_line_not_annotated_again patched_block 7).
  - evaluate.
  - simpl; lia.
  - evaluate.
Defined.

(** X14: an annotation the pass inserts is found by the next pass.  If
    the pass writes the annotation for line [n], then in its output the
    line sits at the position the output had reached, its annotation
    right below, and a pass over that output builds no annotation for it
    again. *)
Theorem inserted_annotation_stops_next_pass (lines : list string) (n : nat) :
  n < length lines ->
  written_for lines n
  = [item lines n; map_type_line (indent_of (item lines n))] ->
  item (fix_claims lines) (length (fixed_lines (state_at lines n)))
  = item lines n /\
  item (fix_claims lines) (S (length (fixed_lines (state_at lines n))))
  = map_type_line (indent_of (item lines n)) /\
  map_type_line (indent_of (item lines n))
  ∉ written_for (fix_claims lines) (length (fixed_lines (state_at lines n))).
Proof.
  intros Hn Hwritten.
  set (line := item lines n) in *.
  set (p := length (fixed_lines (state_at lines n))).
  assert (Hobj : strip line = "type: object").
  { pose proof (written_for_chunk lines n) as Hc. fold line in Hc.
    rewrite Hwritten in Hc. inversion Hc; assumption. }
  destruct (fixed_lines_prefix lines (S n) (length lines) Hn) as [rest Hout].
  rewrite <- fix_claims_state_at, fixed_lines_S in Hout.
  fold (written_for lines n) in Hout. rewrite Hwritten in Hout.
  assert (Hp : fix_claims lines !! p = Some line).
  { rewrite Hout, <- (assoc_L (++)). simpl.
    apply list_lookup_middle. reflexivity. }
  assert (HSp : fix_claims lines !! S p
                = Some (map_type_line (indent_of line))).
  { rewrite Hout, <- (assoc_L (++)). simpl.
    replace (fixed_lines (state_at lines n)
             ++ line :: map_type_line (indent_of line) :: rest)
      with ((fixed_lines (state_at lines n) ++ [line])
            ++ map_type_line (indent_of line) :: rest)
      by (rewrite <- (assoc_L (++)); reflexivity).
    apply list_lookup_middle.
    rewrite length_app. simpl. unfold p. lia. }
  assert (Hitem : item (fix_claims lines) p = line).
  { apply nth_lookup_Some with (d := EmptyString) in Hp. exact Hp. }
  assert (HitemS : item (fix_claims lines) (S p)
                   = map_type_line (indent_of line)).
  { apply nth_lookup_Some with (d := EmptyString) in HSp. exact HSp. }
  split; [exact Hitem|]. split; [exact HitemS|].
  assert (Hhas : has_map_type (fix_claims lines) p
                   (item (fix_claims lines) p) = true).
  { apply has_map_type_already_annotated. exists (S p).
    split; [lia|]. split; [lia|]. split; [lia|].
    split; [exact (lookup_lt_Some _ _ _ HSp)|].
    rewrite HitemS, Hitem. split; [apply contains_marker_map_type_line|].
    rewrite indent_of_map_type_line. lia. }
  intros Hin. rewrite written_for_eq, Hhas, andb_false_r, Hitem in Hin.
  destruct (_ && _) in Hin;
    repeat (apply elem_of_cons in Hin as [Hin|Hin];
            [exact (object_line_not_annotation _ _ Hobj (eq_sym Hin))|]);
    inversion Hin.
Qed.

Lemma inserted_annotation_stops_next_pass_witness :
  written_for two_sites_block 3
  = [ln "    type: object"; ln "    x-kubernetes-map-type: atomic"] /\
  length (fixed_lines (state_at two_sites_block 3)) = 4 /\
  item (fix_claims two_sites_block) 4 = ln "    type: object" /\
  item (fix_claims two_sites_block) 5 = ln "    x-kubernetes-map-type: atomic" /\
  ln "    x-kubernetes-map-type: atomic"
  ∉ written_for (fix_claims two_sites_block) 4.
Proof.
  split; [evaluate|]. split; [evaluate|].
  apply (inserted_annotation_stops_next_pass two_sites_block 3).
  - simpl; lia.
  - evaluate.
Defined.

(** ** The text of the file *)

Lemma append_cons c a b : String c a +:+ b = String c (a +:+ b).
Proof. reflexivity. Qed.

Lemma append_empty b : EmptyString +:+ b = b.
Proof. reflexivity. Qed.

(** Writing the lines just read gives the text back. *)
Lemma writelines_readlines text : writelines (readlines text) = text.
Proof.
  induction text as [|c t IH]; [reflexivity|].
  simpl readlines. destruct (Ascii.eqb c _).
  - simpl writelines. rewrite IH. reflexivity.
  - destruct (readlines t) as [|l ls]; simpl writelines in *.
    + rewrite <- IH. reflexivity.
    + rewrite append_cons, IH. reflexivity.
Qed.

Lemma readlines_nil text : readlines text = [] -> text = EmptyString.
Proof.
  destruct text as [|c t]; [reflexivity|]. simpl.
  destruct (Ascii.eqb c _); [discriminate|].
  destruct (readlines t); discriminate.
Qed.

Lemma readlines_terminated text :
  complete text = true ->
  Forall (fun l => terminated l = true) (readlines text).
Proof.
  induction text as [|c t IH]; intros Hc; [constructor|].
  simpl readlines. destruct (Ascii.eqb c _) eqn:Hnl.
  - constructor.
    + simpl. rewrite Hnl. reflexivity.
    + apply IH. destruct t; [reflexivity|exact Hc].
  - destruct t as [|c' t']; [simpl in Hc; congruence|].
    specialize (IH Hc).
    destruct (readlines (String c' t')) as [|l ls] eqn:E.
    + apply readlines_nil in E. discriminate.
    + inversion IH as [|? ? Hl Hls]; subst. constructor; [|exact Hls].
      simpl. rewrite Hnl. exact Hl.
Qed.

Lemma readlines_append_terminated l text :
  terminated l = true -> readlines (l +:+ text) = l :: readlines text.
Proof.
  induction l as [|c l IH]; [discriminate|].
  rewrite append_cons. simpl.
  destruct (Ascii.eqb c _) eqn:Hnl.
  - destruct l; [|discriminate]. intros _. reflexivity.
  - intros Hl. rewrite (IH Hl). reflexivity.
Qed.

(** Reading the lines just written gives the lines back, when each has
    its newline. *)
Lemma readlines_writelines ls :
  Forall (fun l => terminated l = true) ls ->
  readlines (writelines ls) = ls.
Proof.
  induction 1 as [|l ls Hl Hls IH]; [reflexivity|].
  simpl writelines. rewrite (readlines_append_terminated l _ Hl), IH.
  reflexivity.
Qed.

Lemma terminated_map_type_line k : terminated (map_type_line k) = true.
Proof.
  unfold map_type_line. induction k as [|k IH]; [reflexivity|].
  change (spaces (S k) +:+ ?t) with (String " "%char (spaces k +:+ t)).
  exact IH.
Qed.

Lemma fix_claims_terminated lines :
  Forall (fun l => terminated l = true) lines ->
  Forall (fun l => terminated l = true) (fix_claims lines).
Proof.
  intros Hlines. rewrite fix_claims_state_at.
  assert (H : forall n, n <= length lines ->
            Forall (fun l => terminated l = true)
                   (fixed_lines (state_at lines n))).
  { induction n as [|n IH]; intros Hn; [constructor|].
    rewrite fixed_lines_S. apply Forall_app. split; [apply IH; lia|].
    fold (written_for lines n).
    assert (Hline : terminated (item lines n) = true).
    { rewrite Forall_forall in Hlines. apply Hlines.
      apply list_elem_of_lookup_2 with (i := n), item_lookup. lia. }
    destruct (written_for_chunk lines n);
      repeat constructor; try exact Hline.
    apply terminated_map_type_line. }
  apply H. lia.
Qed.

Lemma prefix_append sub : forall a b,
  String.prefix sub a = true -> String.prefix sub (a +:+ b) = true.
Proof.
  induction sub as [|x sub IH]; intros a b.
  { intros _. destruct (a +:+ b); reflexivity. }
  destruct a as [|y a]; [discriminate|].
  rewrite append_cons. simpl.
  destruct (ascii_dec x y); [apply IH|discriminate].
Qed.

Lemma contains_append_r sub a b :
  contains sub b = true -> contains sub (a +:+ b) = true.
Proof.
  intros Hb. induction a as [|c a IH]; [exact Hb|].
  rewrite append_cons. cbn [contains]. rewrite IH. apply orb_true_r.
Qed.

Lemma contains_append_l sub a b :
  contains sub a = true -> contains sub (a +:+ b) = true.
Proof.
  induction a as [|c a IH]; intros Ha.
  - destruct sub; [|discriminate]. destruct b; reflexivity.
  - rewrite append_cons. cbn [contains] in *.
    apply orb_true_iff in Ha as [Ha|Ha].
    + rewrite <- append_cons, (prefix_append _ _ b Ha). reflexivity.
    + rewrite (IH Ha). apply orb_true_r.
Qed.

Lemma contains_writelines sub l ls :
  l ∈ ls -> contains sub l = true -> contains sub (writelines ls) = true.
Proof.
  induction 1 as [l ls|l l' ls Hin IH]; intros Hl; simpl writelines.
  - apply contains_append_l, Hl.
  - apply contains_append_r, IH, Hl.
Qed.

(** What the text does not contain, none of its lines contains. *)
Lemma contains_readlines sub text l :
  contains sub text = false -> l ∈ readlines text -> contains sub l = false.
Proof.
  intros Htext Hin. destruct (contains sub l) eqn:Hl; [|reflexivity].
  pose proof (contains_writelines sub l _ Hin Hl) as H.
  rewrite writelines_readlines in H. congruence.
Qed.

(** *** The newline translation *)

(** Induction on a text, two characters at a time. *)
Lemma string_pair_ind (P : string -> Prop) :
  P EmptyString ->
  (forall c, P (String c EmptyString)) ->
  (forall c c' s, P s -> P (String c' s) -> P (String c (String c' s))) ->
  forall s, P s.
Proof.
  intros H0 H1 H2 s.
  assert (H : P s /\ forall c, P (String c s)).
  { induction s as [|c' s [IHs IHc]]; [split; [exact H0|exact H1]|].
    split; [apply IHc|]. intros c. apply H2; [exact IHs|apply IHc]. }
  apply H.
Qed.

Lemma universal_newlines_no_cr raw : no_cr (universal_newlines raw) = true.
Proof.
  induction raw as [|c|c c' s IHs IHc] using string_pair_ind.
  - reflexivity.
  - simpl. destruct (Ascii.eqb c _) eqn:Hc; simpl; [reflexivity|].
    rewrite Hc. reflexivity.
  - cbn [universal_newlines]. cbn [universal_newlines] in IHc.
    destruct (Ascii.eqb c _) eqn:Hc.
    + cbn [no_cr]. simpl Ascii.eqb. simpl negb. simpl andb.
      destruct (Ascii.eqb c' (Ascii.ascii_of_nat 10)); [exact IHs|exact IHc].
    + cbn [no_cr]. rewrite Hc. exact IHc.
Qed.

Lemma universal_newlines_id s : no_cr s = true -> universal_newlines s = s.
Proof.
  induction s as [|c s IH]; [reflexivity|]. simpl.
  intros [Hc Hs]%andb_true_iff. apply negb_true_iff in Hc.
  rewrite Hc, (IH Hs). reflexivity.
Qed.

Lemma no_cr_append a b : no_cr (a +:+ b) = no_cr a && no_cr b.
Proof.
  induction a as [|c a IH]; [reflexivity|].
  rewrite append_cons. simpl. rewrite IH. apply andb_assoc.
Qed.

Lemma no_cr_writelines ls :
  Forall (fun l => no_cr l = true) ls -> no_cr (writelines ls) = true.
Proof.
  induction 1 as [|l ls Hl Hls IH]; [reflexivity|].
  simpl writelines. rewrite no_cr_append, Hl, IH. reflexivity.
Qed.

Lemma no_cr_readlines text :
  no_cr text = true -> Forall (fun l => no_cr l = true) (readlines text).
Proof.
  induction text as [|c t IH]; [constructor|].
  simpl. intros [Hc Ht]%andb_true_iff. specialize (IH Ht).
  destruct (Ascii.eqb c (Ascii.ascii_of_nat 10)).
  - constructor; [|exact IH]. simpl. rewrite Hc. reflexivity.
  - destruct (readlines t) as [|l ls].
    + repeat constructor. simpl. rewrite Hc. reflexivity.
    + inversion IH as [|? ? Hl Hls]; subst. constructor; [|exact Hls].
      simpl. rewrite Hc, Hl. reflexivity.
Qed.

Lemma no_cr_map_type_line k : no_cr (map_type_line k) = true.
Proof.
  unfold map_type_line. induction k as [|k IH]; [reflexivity|].
  change (spaces (S k) +:+ ?t) with (String " "%char (spaces k +:+ t)).
  exact IH.
Qed.

Lemma fix_claims_no_cr lines :
  Forall (fun l => no_cr l = true) lines ->
  Forall (fun l => no_cr l = true) (fix_claims lines).
Proof.
  intros Hlines. rewrite fix_claims_state_at.
  assert (H : forall n, n <= length lines ->
            Forall (fun l => no_cr l = true)
                   (fixed_lines (state_at lines n))).
  { induction n as [|n IH]; intros Hn; [constructor|].
    rewrite fixed_lines_S. apply Forall_app. split; [apply IH; lia|].
    fold (written_for lines n).
    assert (Hline : no_cr (item lines n) = true).
    { rewrite Forall_forall in Hlines. apply Hlines.
      apply list_elem_of_lookup_2 with (i := n), item_lookup. lia. }
    destruct (written_for_chunk lines n);
      repeat constructor; try exact Hline.
    apply no_cr_map_type_line. }
  apply H. lia.
Qed.

(** A word without newline or carriage return that begins the text read
    begins the text of the file. *)
Lemma prefix_universal_newlines sub : forall raw,
  no_cr sub = true ->
  contains nl sub = false ->
  String.prefix sub (universal_newlines raw) = true ->
  String.prefix sub raw = true.
Proof.
  induction sub as [|x sub IH]; intros raw Hcr Hnl.
  { intros _. destruct raw; reflexivity. }
  simpl in Hcr. apply andb_true_iff in Hcr as [Hx Hsub].
  apply negb_true_iff in Hx.
  assert (Hxnl : Ascii.eqb x (Ascii.ascii_of_nat 10) = false
                 /\ contains nl sub = false).
  { cbn [contains] in Hnl. apply orb_false_iff in Hnl as [Hp Hrest].
    split; [|exact Hrest].
    destruct (Ascii.eqb x (Ascii.ascii_of_nat 10)) eqn:E; [|reflexivity].
    apply Ascii.eqb_eq in E. subst x. simpl in Hp.
    destruct sub; discriminate. }
  destruct Hxnl as [Hx10 Hsubnl].
  destruct raw as [|c raw]; [intros H; exact H|].
  cbn [universal_newlines].
  destruct (Ascii.eqb c (Ascii.ascii_of_nat 13)) eqn:Hc.
  - simpl. destruct (ascii_dec x _) as [->|_]; [|discriminate].
    simpl in Hx10. discriminate.
  - simpl. destruct (ascii_dec x c) as [_|_]; [|discriminate].
    apply IH; assumption.
Qed.

(** A word without newline or carriage return that occurs in the text
    read occurs in the text of the file. *)
Lemma contains_universal_newlines x sub raw :
  no_cr (String x sub) = true ->
  contains nl (String x sub) = false ->
  contains (String x sub) (universal_newlines raw) = true ->
  contains (String x sub) raw = true.
Proof.
  intros Hcr Hnl.
  assert (Hx10 : forall t,
            String.prefix (String x sub) (String (Ascii.ascii_of_nat 10) t)
            = false).
  { intros t. simpl. destruct (ascii_dec x _) as [->|_]; [|reflexivity].
    cbn [contains] in Hnl. apply orb_false_iff in Hnl as [Hp _].
    simpl in Hp. destruct sub; discriminate. }
  induction raw as [|c|c c' s IHs IHc] using string_pair_ind.
  - intros H. exact H.
  - cbn [universal_newlines].
    destruct (Ascii.eqb c (Ascii.ascii_of_nat 13)); [|intros H; exact H].
    cbn [contains]. rewrite Hx10. simpl. discriminate.
  - cbn [universal_newlines].
    destruct (Ascii.eqb c (Ascii.ascii_of_nat 13)) eqn:Hc.
    + cbn [contains]. rewrite Hx10. rewrite orb_false_l.
      destruct (Ascii.eqb c' (Ascii.ascii_of_nat 10)).
      * intros H. rewrite (IHs H), !orb_true_r. reflexivity.
      * intros H. cbn [contains] in IHc. rewrite (IHc H). apply orb_true_r.
    + intros H. cbn [contains] in H. apply orb_true_iff in H as [H|H].
      * assert (Hp : String.prefix (String x sub)
                       (universal_newlines (String c (String c' s))) = true).
        { cbn [universal_newlines]. rewrite Hc. exact H. }
        apply (prefix_universal_newlines _ _ Hcr Hnl) in Hp.
        cbn [contains]. rewrite Hp. reflexivity.
      * change (contains (String x sub) (String c (String c' s)))
          with (String.prefix (String x sub) (String c (String c' s))
                || contains (String x sub) (String c' s)).
        rewrite (IHc H). apply orb_true_r.
Qed.

(** *** The file, from text to text *)

(** X15: a file whose text does not contain [claims:] is written back
    as it was read: a carriage return with its newline, or alone, has
    become a newline, and nothing else is changed.  A text without
    carriage return is written back character for character, whether or
    not it ends with a newline. *)
Theorem text_without_claims_key_written_as_read (text : string) :
  contains "claims:" text = false ->
  fix_claims_text text = universal_newlines text /\
  (no_cr text = true -> fix_claims_text text = text).
Proof.
  intros Htext.
  assert (Hread : contains "claims:" (universal_newlines text) = false).
  { destruct (contains "claims:" (universal_newlines text)) eqn:E;
      [|reflexivity].
    apply contains_universal_newlines in E; [congruence|reflexivity..]. }
  assert (Heq : fix_claims_text text = universal_newlines text).
  { unfold fix_claims_text.
    rewrite no_claims_key_unchanged; [apply writelines_readlines|].
    intros l Hl. exact (contains_readlines _ _ _ Hread Hl). }
  split; [exact Heq|].
  intros Hcr. rewrite Heq. apply universal_newlines_id, Hcr.
Qed.

(** X16: when the text of the file, as read, is empty or ends with a
    newline, the lines read back from the written file are the lines the
    loop produced: no two of them run together and none holds a carriage
    return, so patching the file again is the loop run on that
    output. *)
Theorem written_file_read_back (text : string) :
  complete (universal_newlines text) = true ->
  readlines (universal_newlines (fix_claims_text text))
  = fix_claims (readlines (universal_newlines text)) /\
  fix_claims_text (fix_claims_text text)
  = writelines (fix_claims (fix_claims (readlines (universal_newlines text)))).
Proof.
  intros Hc.
  assert (Hback : readlines (universal_newlines (fix_claims_text text))
                  = fix_claims (readlines (universal_newlines text))).
  { unfold fix_claims_text.
    rewrite universal_newlines_id
      by (apply no_cr_writelines, fix_claims_no_cr, no_cr_readlines,
            universal_newlines_no_cr).
    apply readlines_writelines, fix_claims_terminated, readlines_terminated, Hc. }
  split; [exact Hback|].
  unfold fix_claims_text at 1. rewrite Hback. reflexivity.
Qed.

(** A file with carriage returns and no [claims:] key: written back
    with newlines only. *)
Lemma text_without_claims_key_written_as_read_witness :
  contains "claims:"
    ("limits:" +:+ String (Ascii.ascii_of_nat 13) nl +:+ "  type: object" +:+ nl)
  = false /\
  fix_claims_text
    ("limits:" +:+ String (Ascii.ascii_of_nat 13) nl +:+ "  type: object" +:+ nl)
  = "limits:" +:+ nl +:+ "  type: object" +:+ nl /\
  fix_claims_text (writelines no_claims_block) = writelines no_claims_block.
Proof.
  split; [evaluate|]. split.
  - apply (proj1 (text_without_claims_key_written_as_read
             ("limits:" +:+ String (Ascii.ascii_of_nat 13) nl
              +:+ "  type: object" +:+ nl) ltac:(evaluate))).
  - apply (proj2 (text_without_claims_key_written_as_read
             (writelines no_claims_block) ltac:(evaluate))).
    evaluate.
Defined.

(** The example block with a carriage return before every newline. *)
Lemma written_file_read_back_witness :
  complete (universal_newlines
              (writelines (map (fun l => rstrip l +:+ String (Ascii.ascii_of_nat 13) nl)
                               example_block))) = true /\
  readlines (universal_newlines
               (fix_claims_text
                  (writelines (map (fun l => rstrip l +:+ String (Ascii.ascii_of_nat 13) nl)
                                   example_block))))
  = patched_block /\
  fix_claims (readlines (universal_newlines
               (writelines (map (fun l => rstrip l +:+ String (Ascii.ascii_of_nat 13) nl)
                                example_block))))
  = patched_block.
Proof.
  split; [evaluate|].
  destruct (written_file_read_back
              (writelines (map (fun l => rstrip l +:+ String (Ascii.ascii_of_nat 13) nl)
                               example_block)) ltac:(evaluate)) as [Hback _].
  split; [|evaluate].
  rewrite Hback. evaluate.
Defined.

(** Without the last newline the lines can run together: the last line,
    written twice, comes back as one line. *)
Lemma unterminated_line_runs_together :
  complete (universal_newlines ("claims:" +:+ nl +:+ "  type: object")) = false /\
  fix_claims_text ("claims:" +:+ nl +:+ "  type: object")
  = "claims:" +:+ nl +:+ "  type: object  type: object" /\
  readlines (universal_newlines
               (fix_claims_text ("claims:" +:+ nl +:+ "  type: object")))
  <> fix_claims (readlines (universal_newlines
                              ("claims:" +:+ nl +:+ "  type: object"))).
Proof.
  split; [evaluate|]. split; [evaluate|]. vm_compute. discriminate.
Qed.

(** ** The line that closes the block *)

(** X17: the line on which the block is left is still handled as a line
    of the block.  A [type: object] line read with the flag set and
    indented no deeper than the [claims:] line clears the flag for the
    lines after it, and is itself annotated when the lookahead finds
    both and no annotation is near. *)
Theorem closing_line_still_annotated (lines : list string) (n : nat) :
  in_claims_items (state_at lines n) = true ->
  strip (item lines n) = "type: object" ->
  indent_of (item lines n) <= claims_indent (state_at lines n) ->
  qualifies lines n ->
  ~ already_annotated lines n ->
  written_for lines n
  = [item lines n; map_type_line (indent_of (item lines n))] /\
  in_claims_items (state_at lines (S n)) = false.
Proof.
  intros Hflag Hobj Hindent Hq Hnot. split.
  - rewrite written_for_object by assumption.
    apply found_both_qualifies in Hq. apply has_map_type_not_annotated in Hnot.
    rewrite Hq, Hnot. reflexivity.
  - rewrite flag_S, Hflag, Hobj.
    apply Nat.leb_le in Hindent. rewrite Hindent. reflexivity.
Qed.

Lemma sibling_object_block_qualifies : qualifies sibling_object_block 2.
Proof. qualifies_at 1 0. Qed.

Lemma closing_line_still_annotated_witness :
  in_claims_items (state_at sibling_object_block 2) = true /\
  indent_of (item sibling_object_block 2)
  <= claims_indent (state_at sibling_object_block 2) /\
  written_for sibling_object_block 2
  = [ln "  type: object"; ln "  x-kubernetes-map-type: atomic"] /\
  in_claims_items (state_at sibling_object_block 3) = false /\
  written_for sibling_object_block 5 = [ln "    type: object"].
Proof.
  assert (Hflag : in_claims_items (state_at sibling_object_block 2) = true)
    by evaluate.
  assert (Hindent : indent_of (item sibling_object_block 2)
                    <= claims_indent (state_at sibling_object_block 2))
    by (vm_compute; lia).
  assert (Hobj : strip (item sibling_object_block 2) = "type: object")
    by evaluate.
  assert (Hnot : ~ already_annotated sibling_object_block 2)
    by (apply has_map_type_not_annotated; evaluate).
  destruct (closing_line_still_annotated sibling_object_block 2
              Hflag Hobj Hindent sibling_object_block_qualifies Hnot)
    as [Hwritten Hclear].
  split; [exact Hflag|]. split; [exact Hindent|].
  split; [exact Hwritten|]. split; [exact Hclear|]. evaluate.
Defined.

(** ** The ends of the file *)

(** X18: the line read last never gets an annotation line, since an
    annotation needs the list type on a later line.  The output ends
    with what the pass writes for that line: the line twice when it is a
    [type: object] line read with the flag set, the line once
    otherwise. *)
Theorem last_line_never_annotated (lines : list string) :
  0 < length lines ->
  fix_claims lines
  = fixed_lines (state_at lines (length lines - 1))
    ++ written_for lines (length lines - 1) /\
  (in_claims_items (state_at lines (length lines - 1)) = true /\
   strip (item lines (length lines - 1)) = "type: object" ->
   written_for lines (length lines - 1)
   = [item lines (length lines - 1); item lines (length lines - 1)]) /\
  (~ (in_claims_items (state_at lines (length lines - 1)) = true /\
      strip (item lines (length lines - 1)) = "type: object") ->
   written_for lines (length lines - 1) = [item lines (length lines - 1)]).
Proof.
  intros Hlen. split.
  { rewrite fix_claims_state_at.
    replace (length lines) with (S (length lines - 1)) at 1 by lia.
    apply fixed_lines_S. }
  assert (Hboth : found_both lines (length lines - 1) = false).
  { unfold found_both, lookahead_window.
    rewrite drop_ge by lia. reflexivity. }
  rewrite written_for_eq, Hboth. simpl. split.
  - intros [-> Hobj]. apply String.eqb_eq in Hobj. rewrite Hobj. reflexivity.
  - intros Hnot.
    destruct (in_claims_items (state_at lines (length lines - 1)));
      [|reflexivity].
    destruct (String.eqb _ _) eqn:Hobj; [|reflexivity].
    exfalso. apply Hnot. split; [reflexivity|]. apply String.eqb_eq, Hobj.
Qed.

(** A claims block cut after its [type: object] line: the line is the
    last one and is written twice. *)
Lemma last_line_never_annotated_witness :
  length (take 3 plain_array_block) = 3 /\
  fix_claims (take 3 plain_array_block)
  = fixed_lines (state_at (take 3 plain_array_block) 2)
    ++ [ln "    type: object"; ln "    type: object"].
Proof.
  split; [reflexivity|].
  destruct (last_line_never_annotated (take 3 plain_array_block)
              ltac:(simpl; lia)) as (Hout & Htwice & _).
  rewrite Hout, Htwice by (split; evaluate). reflexivity.
Defined.

(** ** How far the pass looks *)

Lemma item_take (lines : list string) m k :
  k < m -> item (take m lines) k = item lines k.
Proof.
  intros Hk. unfold item. rewrite !nth_lookup, lookup_take_lt by exact Hk.
  reflexivity.
Qed.

Lemma item_agree (lines lines' : list string) m k :
  take m lines = take m lines' -> k < m -> item lines k = item lines' k.
Proof.
  intros Heq Hk.
  rewrite <- (item_take lines m k Hk), <- (item_take lines' m k Hk), Heq.
  reflexivity.
Qed.

Lemma length_agree (lines lines' : list string) m k :
  take m lines = take m lines' -> k < m ->
  k < length lines <-> k < length lines'.
Proof.
  intros Heq Hk.
  assert (H : length (take m lines) = length (take m lines'))
    by (rewrite Heq; reflexivity).
  rewrite !length_take in H. lia.
Qed.

Lemma state_agree (lines lines' : list string) m n :
  take m lines = take m lines' -> n <= m ->
  in_claims_items (state_at lines n) = in_claims_items (state_at lines' n) /\
  claims_indent (state_at lines n) = claims_indent (state_at lines' n).
Proof.
  intros Heq. induction n as [|n IH]; intros Hn; [split; reflexivity|].
  destruct (IH ltac:(lia)) as [Hflag Hindent].
  rewrite !flag_S, !claims_indent_S, Hflag, Hindent.
  rewrite (item_agree lines lines' m n Heq) by lia.
  split; reflexivity.
Qed.

Lemma already_annotated_agree (lines lines' : list string) n :
  take (n + 5) lines = take (n + 5) lines' ->
  already_annotated lines n -> already_annotated lines' n.
Proof.
  intros Heq (k & Hne & Hlo & Hhi & Hlen & Hc & Habs).
  exists k. split; [exact Hne|]. split; [exact Hlo|]. split; [exact Hhi|].
  split; [apply (length_agree lines lines' (n + 5) k Heq Hhi), Hlen|].
  rewrite <- (item_agree lines lines' (n + 5) k Heq Hhi).
  rewrite <- (item_agree lines lines' (n + 5) n Heq) by lia.
  split; assumption.
Qed.

(** X19: the pass looks no further than 4 lines ahead.  Two files with
    the same first [n + 5] lines get the same lines written for line [n]
    and reach line [n + 1] with the same flag and the same
    [claims_indent], whatever follows. *)
Theorem decided_by_next_four_lines (lines lines' : list string) (n : nat) :
  take (n + 5) lines = take (n + 5) lines' ->
  written_for lines n = written_for lines' n /\
  in_claims_items (state_at lines (S n))
  = in_claims_items (state_at lines' (S n)) /\
  claims_indent (state_at lines (S n))
  = claims_indent (state_at lines' (S n)).
Proof.
  intros Heq. split; [|apply (state_agree lines lines' (n + 5)); [exact Heq|lia]].
  destruct (state_agree lines lines' (n + 5) n Heq ltac:(lia)) as [Hflag _].
  rewrite !written_for_eq, Hflag.
  rewrite <- (item_agree lines lines' (n + 5) n Heq) by lia.
  assert (Hboth : found_both lines n = found_both lines' n).
  { unfold found_both, lookahead_window.
    rewrite !take_drop_commute.
    replace (S n + 4) with (n + 5) by lia. rewrite Heq. reflexivity. }
  assert (Hhas : has_map_type lines n (item lines n)
                 = has_map_type lines' n (item lines n)).
  { rewrite (item_agree lines lines' (n + 5) n Heq) at 2 by lia.
    destruct (has_map_type lines n (item lines n)) eqn:H1,
             (has_map_type lines' n (item lines' n)) eqn:H2;
      try reflexivity.
    - apply has_map_type_already_annotated in H1.
      apply (already_annotated_agree lines lines' n Heq) in H1.
      apply has_map_type_already_annotated in H1. congruence.
    - apply has_map_type_already_annotated in H2.
      apply (already_annotated_agree lines' lines n (eq_sym Heq)) in H2.
      apply has_map_type_already_annotated in H2. congruence. }
  rewrite Hboth, Hhas. reflexivity.
Qed.

Lemma decided_by_next_four_lines_witness :
  take (2 + 5) late_annotation_block
  = take (2 + 5) (take 7 late_annotation_block ++ no_claims_block) /\
  written_for late_annotation_block 2
  = written_for (take 7 late_annotation_block ++ no_claims_block) 2 /\
  in_claims_items (state_at late_annotation_block 3)
  = in_claims_items (state_at (take 7 late_annotation_block ++ no_claims_block) 3) /\
  claims_indent (state_at late_annotation_block 3)
  = claims_indent (state_at (take 7 late_annotation_block ++ no_claims_block) 3).
Proof.
  split; [evaluate|].
  apply (decided_by_next_four_lines late_annotation_block
           (take 7 late_annotation_block ++ no_claims_block) 2).
  evaluate.
Defined.
